(** * Voice Threat Scoring Engine: a shallow embedding of
      [model/text_model.py] and [model/voice_model.py].

    Python floats are IEEE 754 binary64 numbers and are embedded as Rocq's
    primitive floats; Python dictionaries whose iteration order is irrelevant
    are [gmap]s, the score dictionaries built from model outputs (whose
    [values()] order is observable through [max]) are insertion-ordered
    association lists; code that may raise returns a [result]; calls into
    librosa, numpy reductions, scikit-learn and the transformers pipelines are
    fields of records of oracles, so that every statement below holds whatever
    those libraries compute. *)

From Stdlib Require Import Floats ZArith Ascii String.
From stdpp Require Import gmap strings list.

Set Warnings "-inexact-float".
Open Scope float_scope.

(** ** Exceptions *)

(** A Python computation either returns a value or raises an [Exception]. *)
Inductive result (A : Type) : Type :=
  | Ok (a : A)
  | Raise.
Arguments Ok {A} a.
Arguments Raise {A}.

#[export] Instance result_ret : MRet result := λ A a, Ok a.
#[export] Instance result_bind : MBind result := λ A B k r,
  match r with Ok a => k a | Raise => Raise end.

#[export] Instance result_fmap : FMap result := λ A B f r,
  match r with Ok a => Ok (f a) | Raise => Raise end.

(** [try: body / except Exception: handler]. *)
Definition try_except {A} (body handler : result A) : result A :=
  match body with Ok a => Ok a | Raise => handler end.

(** A [try] whose handler returns the default value [d]. *)
Definition try_default {A} (body : result A) (d : A) : A :=
  match body with Ok a => a | Raise => d end.

Definition raises {A} (r : result A) : bool :=
  match r with Ok _ => false | Raise => true end.

(** ** Python floats *)

Module PyFloat.

(** [a > b], [a < b] and [a <= b] on floats (all false on NaN). *)
Definition gt (a b : float) : bool := PrimFloat.ltb b a.
Definition lt (a b : float) : bool := PrimFloat.ltb a b.
Definition le (a b : float) : bool := PrimFloat.leb a b.

(** The builtin [min(a, b)]: the first argument is kept unless the second
    is strictly smaller. *)
Definition min (a b : float) : float := if lt b a then b else a.

(** [int] to [float] conversion (exact below 2^53). *)
Definition of_N (n : N) : float :=
  PrimFloat.of_uint63 (Uint63.of_Z (Z.of_N n)).
Definition of_nat (n : nat) : float := of_N (N.of_nat n).

(** [a / b] on Python floats raises [ZeroDivisionError] when [b] is zero. *)
Definition div (a b : float) : result float :=
  if PrimFloat.eqb b 0 then Raise else Ok (a / b).

(** [sum(xs)]: left-to-right additions starting from [0]. *)
Definition sum (xs : list float) : float := foldl PrimFloat.add 0 xs.

(** The builtin [max] over a non-empty iterable: the running maximum is
    replaced only by a strictly greater item; [ValueError] when empty. *)
Definition max_list (xs : list float) : result float :=
  match xs with
  | [] => Raise
  | x :: rest => Ok (foldl (λ m y, if gt y m then y else m) x rest)
  end.

End PyFloat.

(** ** Text and the fragment of [re] used by the keyword tables *)

(** A Python [str] is a sequence of Unicode code points. *)
Definition text : Type := list N.

(** ASCII string literals as texts. *)
Definition str (s : string) : text :=
  N_of_ascii <$> list_ascii_of_string s.

(** The tables of the Unicode database that [re] and [str] consult.  They
    belong to the Python runtime and are taken as parameters. *)
Record UnicodeDB : Type := {
  uni_isdigit : N → bool;        (* [\d] *)
  uni_isspace : N → bool;        (* [\s], [str.isspace] *)
  uni_isword : N → bool;         (* [\w]: alphanumeric or underscore *)
  uni_ieq : N → N → bool;        (* pattern character vs. text character
                                    under [re.IGNORECASE] *)
  uni_lower : text → text        (* [str.lower] *)
}.

Module Re.

Inductive atom : Type :=
  | Lit (c : N)      (* a literal character *)
  | Digit            (* [\d] *)
  | Space.           (* [\s] *)

Inductive quant : Type := One | Opt | Star | Plus.

Inductive item : Type :=
  | Chr (a : atom) (q : quant)
  | Bound.           (* [\b] *)

Definition regex : Type := list item.

(** *** Reading a pattern from its source text *)

Inductive token : Type :=
  | TAtom (a : atom)
  | TBound
  | TQuant (q : quant).

Definition escape (c : ascii) : token :=
  if Ascii.eqb c "b" then TBound
  else if Ascii.eqb c "d" then TAtom Digit
  else if Ascii.eqb c "s" then TAtom Space
  else TAtom (Lit (N_of_ascii c)).

Fixpoint tokens (s : string) : list token :=
  match s with
  | EmptyString => []
  | String c rest =>
      if Ascii.eqb c "\" then
        match rest with
        | EmptyString => [TAtom (Lit (N_of_ascii c))]
        | String e rest' => escape e :: tokens rest'
        end
      else if Ascii.eqb c "*" then TQuant Star :: tokens rest
      else if Ascii.eqb c "+" then TQuant Plus :: tokens rest
      else if Ascii.eqb c "?" then TQuant Opt :: tokens rest
      else TAtom (Lit (N_of_ascii c)) :: tokens rest
  end.

Fixpoint items (ts : list token) : regex :=
  match ts with
  | [] => []
  | TAtom a :: TQuant q :: rest => Chr a q :: items rest
  | TAtom a :: rest => Chr a One :: items rest
  | TBound :: rest => Bound :: items rest
  | TQuant _ :: rest => items rest
  end.

(** [re.compile(r"...")] for patterns made of literals, [\d], [\s], [\b],
    escaped punctuation and the postfix operators [*], [+], [?]. *)
Definition compile (s : string) : regex := items (tokens s).

(** *** Matching *)

Section Matching.
Context (U : UnicodeDB).
(** [flags & re.IGNORECASE] *)
Context (ignorecase : bool).

Definition atom_match (a : atom) (c : N) : bool :=
  match a with
  | Lit p => if ignorecase then uni_ieq U p c else N.eqb p c
  | Digit => uni_isdigit U c
  | Space => uni_isspace U c
  end.

Definition is_word (o : option N) : bool :=
  match o with Some c => uni_isword U c | None => false end.

(** [\b]: exactly one of the characters around the position is a word
    character (the ends of the text count as non-word). *)
Definition at_boundary (prev : option N) (s : text) : bool :=
  xorb (is_word prev) (is_word (head s)).

(** Some number of characters matching [a], then [k]. *)
Fixpoint star (a : atom) (k : option N → text → bool)
    (prev : option N) (s : text) : bool :=
  k prev s ||
  match s with
  | c :: s' => atom_match a c && star a k (Some c) s'
  | [] => false
  end.

(** Does a prefix of [s] match [r], the character before [s] being
    [prev]? *)
Fixpoint match_here (r : regex) (prev : option N) (s : text) : bool :=
  match r with
  | [] => true
  | Bound :: r' => at_boundary prev s && match_here r' prev s
  | Chr a One :: r' =>
      match s with
      | c :: s' => atom_match a c && match_here r' (Some c) s'
      | [] => false
      end
  | Chr a Opt :: r' =>
      match s with
      | c :: s' => atom_match a c && match_here r' (Some c) s'
      | [] => false
      end || match_here r' prev s
  | Chr a Star :: r' => star a (match_here r') prev s
  | Chr a Plus :: r' =>
      match s with
      | c :: s' => atom_match a c && star a (match_here r') (Some c) s'
      | [] => false
      end
  end.

Fixpoint search_from (r : regex) (prev : option N) (s : text) : bool :=
  match_here r prev s ||
  match s with
  | c :: s' => search_from r (Some c) s'
  | [] => false
  end.

(** [re.search(r, s, flags)] as a truth value. *)
Definition search (r : regex) (s : text) : bool := search_from r None s.

End Matching.

End Re.

Fixpoint drop_while {A} (p : A → bool) (l : list A) : list A :=
  match l with
  | [] => []
  | x :: l' => if p x then drop_while p l' else l
  end.

(** [str.strip()]: leading and trailing whitespace removed. *)
Definition str_strip (U : UnicodeDB) (s : text) : text :=
  reverse (drop_while (uni_isspace U) (reverse (drop_while (uni_isspace U) s))).

(** ** Labels *)

Inductive Label : Type := Safe | Offensive | Threat.

#[export] Instance Label_eq_dec : EqDecision Label.
Proof. solve_decision. Defined.

(** ** [model/text_model.py]: the transcript classifier *)

Module TextModel.

(** The tokenizer and the toxicity network followed by the sigmoid: the
    vector [probs] of label probabilities, or an exception. *)
Record TextThreatClassifier : Type := {
  model_probs : text → result (list float)
}.

Definition label_names : list string :=
  ["toxic"; "severe_toxic"; "obscene"; "threat"; "insult";
   "identity_hate"; "sexual_explicit"].

(** [names.index(x)], [ValueError] when absent. *)
Fixpoint index (x : string) (names : list string) : result nat :=
  match names with
  | [] => Raise
  | y :: rest => if String.eqb x y then Ok 0%nat else S <$> index x rest
  end.

(** [probs[i]], [IndexError] when out of range. *)
Definition item (probs : list float) (i : nat) : result float :=
  match probs !! i with Some p => Ok p | None => Raise end.

Definition score (probs : list float) (name : string) : result float :=
  i ← index name label_names; item probs i.

Definition rupee : N := 8377%N.

Definition money_keywords : list Re.regex :=
  [Re.compile "\$\d+";
   [Re.Chr (Re.Lit rupee) Re.One; Re.Chr Re.Digit Re.Plus];
   Re.compile "rs\.?\s*\d+";
   Re.compile "transfer"; Re.compile "payment"; Re.compile "account";
   Re.compile "bank"].

Definition threat_keywords : list Re.regex :=
  Re.compile <$>
  ["\bkill\b"; "\battack\b"; "\bbomb\b"; "\bshoot\b"; "\bdie\b";
   "\bmurder\b"; "\bthreat\b"; "\bharm\b"]%string.

(** [for kw in kws: if re.search(kw, text, re.IGNORECASE): return ...] *)
Definition any_match (U : UnicodeDB) (kws : list Re.regex) (t : text) : bool :=
  existsb (λ kw, Re.search U true kw t) kws.

Definition decide_label (threat_score sexual_score toxic_score obscene_score
    hate_score severe_toxic_score insult_score : float) : Label * string :=
  if PyFloat.gt threat_score 0.4 || PyFloat.gt sexual_score 0.4
     || PyFloat.gt hate_score 0.4
  then (Threat, "⚠"%string)
  else if PyFloat.gt toxic_score 0.4 || PyFloat.gt obscene_score 0.4
          || PyFloat.gt severe_toxic_score 0.4 || PyFloat.gt insult_score 0.4
  then (Offensive, "❗"%string)
  else (Safe, "✅"%string).

(** [TextThreatClassifier.predict] *)
Definition predict (U : UnicodeDB) (M : TextThreatClassifier) (t : text)
    : result (Label * string) :=
  if any_match U money_keywords t then Ok (Offensive, "❗"%string)
  else if any_match U threat_keywords t then Ok (Threat, "⚠"%string)
  else
    probs ← model_probs M t;
    threat_score ← score probs "threat";
    sexual_score ← score probs "sexual_explicit";
    toxic_score ← score probs "toxic";
    obscene_score ← score probs "obscene";
    hate_score ← score probs "identity_hate";
    severe_toxic_score ← score probs "severe_toxic";
    insult_score ← score probs "insult";
    Ok (decide_label threat_score sexual_score toxic_score obscene_score
          hate_score severe_toxic_score insult_score).

(** [TextThreatClassifier.predict_scores]: [dict(zip(label_names, probs))] *)
Definition predict_scores (M : TextThreatClassifier) (t : text)
    : result (list (string * float)) :=
  probs ← model_probs M t; Ok (zip label_names probs).

End TextModel.

(** ** [model/voice_model.py]: the voice threat classifier *)

Module VoiceModel.

(** A mono sample buffer ([np.ndarray]). *)
Definition audio : Type := list float.

(** *** Insertion-ordered score dictionaries *)

Definition pydict : Type := list (string * float).

(** [d[k] = v] *)
Fixpoint dict_set (k : string) (v : float) (d : pydict) : pydict :=
  match d with
  | [] => [(k, v)]
  | (k', v') :: rest =>
      if String.eqb k k' then (k, v) :: rest else (k', v') :: dict_set k v rest
  end.

(** [d.get(k, dflt)] *)
Fixpoint dict_get (k : string) (dflt : float) (d : pydict) : float :=
  match d with
  | [] => dflt
  | (k', v') :: rest => if String.eqb k k' then v' else dict_get k dflt rest
  end.

(** [for result in results: scores[result['label']] = result['score']] *)
Definition dict_of_results (results : list (string * float)) : pydict :=
  foldl (λ d r, dict_set r.1 r.2 d) [] results.

Definition dict_values (d : pydict) : list float := snd <$> d.

(** Truth value of a sequence or dictionary: non-empty. *)
Definition truthy {A} (l : list A) : bool :=
  match l with [] => false | _ :: _ => true end.

(** *** External collaborators *)

(** librosa, each field standing for the call (with the short-time
    transform it starts from) and the [np.mean] around it where the source
    has one.  An estimator returns real numbers or raises; numpy scalars are
    taken at double precision. *)
Record Librosa : Type := {
  load : string → result audio;                 (* [librosa.load(path, sr=16000)] *)
  zero_crossing_rate : audio → result float;
  spectral_centroid : audio → result float;     (* on [np.abs(stft)] *)
  spectral_bandwidth : audio → result float;
  spectral_rolloff : audio → result float;
  spectral_contrast : audio → result float;
  stft_centroid : audio → result float;         (* on the complex [stft] *)
  stft_bandwidth : audio → result float;
  mfcc : audio → result (list (list float));    (* 13 rows of frames *)
  pitch_values : audio → result (list float);   (* [pitches[magnitudes > 0.1]] *)
  beat_track : audio → result float;            (* tempo *)
  hpss : audio → result (float * float);        (* energies of the two parts *)
  rms : audio → result (list float);            (* frame 2048, hop 512 *)
  onset_detect : audio → result nat;            (* number of onsets *)
  (* onset strength, spectral flatness, spectral rolloff, mel band means *)
  emotional : audio → result (float * float * float * list float)
}.

(** numpy reductions over arrays. *)
Record Numpy : Type := {
  np_mean : list float → float;
  np_std : list float → float;
  np_max : list float → result float;           (* [ValueError] when empty *)
  np_rms_energy : audio → float;                (* [np.sqrt(np.mean(y**2))] *)
  np_sum_sq : audio → float;                    (* [np.sum(y**2)] *)
  np_mean_abs_diff : list float → float;        (* [np.mean(np.abs(np.diff(v)))] *)
  np_float32 : float → float                    (* rounding to single precision *)
}.

(** The scikit-learn forest; [estimators_] exists only once fitted. *)
Record RandomForest : Type := {
  estimators_ : option nat;
  rf_predict : list float → result Z;
  rf_predict_proba_max : list float → result float
}.

Record VoiceThreatClassifier : Type := {
  unicode : UnicodeDB;
  os_path_exists : string → bool;
  librosa : Librosa;
  numpy : Numpy;
  scaler_transform : list float → result (list float);
  rf_classifier : option RandomForest;
  emotion_classifier : option (audio → result (list (string * float)));
  speech_recognizer : option (audio → result text);
  toxicity_classifier : option (text → result (list (string * float)));
  sentiment_analyzer : option (text → result (list (string * float)));
  text_threat_classifier : TextModel.TextThreatClassifier
}.

Definition sample_rate : N := 16000.
Definition max_length : N := 30.

(** *** Keyword tables *)

Definition threat_keywords : list Re.regex :=
  Re.compile <$>
  ["\bkill\b"; "\battack\b"; "\bbomb\b"; "\bshoot\b"; "\bdie\b";
   "\bmurder\b"; "\bthreat\b"; "\bharm\b"; "\bscam\b"; "\bfraud\b";
   "\bsteal\b"; "\bblackmail\b"; "\bkidnap\b"; "\bexplode\b"; "\bweapon\b";
   "\bgun\b"; "\bknife\b"; "\bpoison\b"; "\bassault\b"; "\bterror\b";
   "\bviolence\b"; "\bhostage\b"; "\bexplosive\b"; "\bdetonate\b";
   "\bassassinate\b"; "\bexecute\b"; "\bmaim\b"; "\btorture\b";
   "\bterrorize\b"; "\bintimidate\b"; "\bbeat\b"; "\bstab\b";
   "\bstrangle\b"; "\bsuffocate\b"; "\bpoison\b"; "\barson\b"; "\briot\b";
   "\bgang\b"; "\bcartel\b"; "\bmafia\b"]%string.

Definition distress_indicators : list Re.regex :=
  Re.compile <$>
  ["\bhelp\b"; "\bsave\b"; "\bdanger\b"; "\bemergency\b"; "\bpolice\b";
   "\bambulance\b"; "\bhospital\b"; "\baccident\b"; "\binjury\b";
   "\bpanic\b"; "\bscared\b"; "\bafraid\b"; "\bterrified\b";
   "\bdesperate\b"; "\btrapped\b"; "\bstuck\b"; "\bchoking\b";
   "\bbleeding\b"; "\bunconscious\b"; "\bheart\s*attack\b"; "\bstroke\b";
   "\bseizure\b"; "\boverdose\b"; "\bsuicide\b"; "\bself\s*harm\b";
   "\bcutting\b"; "\bhanging\b"; "\boverdose\b"; "\bpoisoning\b";
   "\bdrowning\b"; "\bfire\b"; "\bexplosion\b"; "\bcrash\b"; "\bwreck\b";
   "\bdisaster\b"; "\bcatastrophe\b"; "\bcrisis\b"; "\bbreakdown\b";
   "\bmental\s*health\b"]%string.

Definition scam_indicators : list Re.regex :=
  Re.compile <$>
  ["\bprize\b"; "\bwinner\b"; "\blottery\b"; "\binheritance\b";
   "\baccount\b"; "\bpassword\b"; "\bcredit\b"; "\bcard\b";
   "\bsocial\s*security\b"; "\btax\b"; "\birs\b"; "\bgovernment\b";
   "\bverify\b"; "\bconfirm\b"; "\bupdate\b"; "\bsecure\b"; "\bimmediate\b";
   "\burgent\b"; "\bnow\b"; "\bquick\b"; "\bwire\b"; "\btransfer\b";
   "\bpayment\b"; "\bpaypal\b"; "\bvenmo\b"; "\bcash\s*app\b";
   "\bgift\s*card\b"; "\bprepaid\b"; "\bcryptocurrency\b"; "\bbitcoin\b";
   "\bwallet\b"; "\bprivate\s*key\b"; "\bseed\s*phrase\b"; "\bbackup\b";
   "\bverify\s*identity\b"; "\bconfirm\s*details\b";
   "\bupdate\s*information\b"; "\bsecurity\s*breach\b";
   "\bunauthorized\s*access\b"; "\bsuspicious\s*activity\b";
   "\bnigerian\s*prince\b"; "\broyal\s*family\b"; "\bdiamond\b"; "\bgold\b";
   "\boil\b"; "\bcontract\b"; "\bdeal\b"; "\boffer\b"; "\blimited\s*time\b";
   "\bexclusive\b"; "\bsecret\b"; "\bconfidential\b"; "\bprivate\b";
   "\bpersonal\s*information\b"; "\bbank\s*account\b";
   "\brouting\s*number\b"; "\bssn\b"; "\bsocial\s*security\s*number\b";
   "\bdriver\s*license\b"; "\bpassport\b"; "\bdate\s*of\s*birth\b";
   "\bmother\s*maiden\s*name\b"]%string.

Section Classifier.
Context (C : VoiceThreatClassifier).

Let L := librosa C.
Let NP := numpy C.

(** *** Transcription and the external text and emotion models *)

(** [transcribe_audio] *)
Definition transcribe_audio (audio_path : string) : text :=
  try_default
    (match speech_recognizer C with
     | Some recognizer => a ← load L audio_path; recognizer a
     | None => Ok []
     end) [].

Definition pitch_mean_std (pv : list float) : float * float :=
  if truthy pv then (np_mean NP pv, np_std NP pv) else (0, 0).

Definition bool_to_float (b : bool) : float := if b then 1 else 0.

(** Energy-based voice activity: the fraction of frames above 2% of the
    peak frame energy. *)
Definition voice_activity (y : audio) : result float :=
  r ← rms L y;
  peak ← np_max NP r;
  let threshold := 0.02 * peak in
  let voiced_frames := (λ x, PyFloat.gt x threshold) <$> r in
  Ok (np_mean NP (bool_to_float <$> voiced_frames)).

(** [is_speech] *)
Definition is_speech (audio_path : string) : bool :=
  try_default
    (y ← load L audio_path;
     voice_activity_ratio ← voice_activity y;
     centroid ← spectral_centroid L y;
     bandwidth ← spectral_bandwidth L y;
     pv ← pitch_values L y;
     let '(pitch_mean, pitch_std) := pitch_mean_std pv in
     m ← mfcc L y;
     let mfcc_std := np_std NP (concat m) in
     Ok (PyFloat.gt voice_activity_ratio 0.3
         && PyFloat.gt centroid 500 && PyFloat.lt centroid 3000
         && PyFloat.gt bandwidth 500 && PyFloat.lt bandwidth 2000
         && PyFloat.gt pitch_mean 80 && PyFloat.lt pitch_mean 400
         && PyFloat.gt pitch_std 20
         && PyFloat.gt mfcc_std 0.5))
    false.

(** [analyze_emotion] *)
Definition analyze_emotion (audio_path : string) : pydict :=
  try_default
    (match emotion_classifier C with
     | Some classifier =>
         if negb (is_speech audio_path) then Ok [("neutral"%string, 1.0)]
         else
           a ← load L audio_path;
           results ← classifier a;
           Ok (dict_of_results results)
     | None => Ok []
     end) [].

Definition analyze_text_with
    (model : option (text → result (list (string * float)))) (t : text)
    : pydict :=
  try_default
    (match model with
     | Some classifier =>
         if truthy (str_strip (unicode C) t)
         then results ← classifier t; Ok (dict_of_results results)
         else Ok []
     | None => Ok []
     end) [].

(** [analyze_text_toxicity] *)
Definition analyze_text_toxicity (t : text) : pydict :=
  analyze_text_with (toxicity_classifier C) t.

(** [analyze_sentiment] *)
Definition analyze_sentiment (t : text) : pydict :=
  analyze_text_with (sentiment_analyzer C) t.

(** *** Feature extraction *)

Definition zeros (n : nat) : list float := replicate n 0.

(** [_calculate_jitter] *)
Definition calculate_jitter (y : audio) : float :=
  try_default
    (pv ← pitch_values L y;
     if (length pv <? 2)%nat then Ok 0
     else Ok (np_mean_abs_diff NP pv / np_mean NP pv)) 0.

(** [_calculate_shimmer] *)
Definition calculate_shimmer (y : audio) : float :=
  try_default
    (rms_values ← rms L y;
     if (length rms_values <? 2)%nat then Ok 0
     else Ok (np_mean_abs_diff NP rms_values / np_mean NP rms_values)) 0.

(** [_extract_emotional_features] *)
Definition extract_emotional_features (y : audio) : list float :=
  try_default
    ('(spectral_flux, spectral_flatness, rolloff, mel_features) ← emotional L y;
     Ok ([spectral_flux; spectral_flatness; rolloff] ++ take 10 mel_features))
    (zeros 13).

(** Values of the feature dictionary: a number or a 1-D array. *)
Inductive fval : Type :=
  | FNum (x : float)
  | FArr (a : list float).

(** [_get_default_features] *)
Definition get_default_features : gmap string fval :=
  list_to_map
    [("duration", FNum 0.0); ("rms_energy", FNum 0.0);
     ("zero_crossing_rate", FNum 0.0); ("spectral_centroid", FNum 0.0);
     ("spectral_bandwidth", FNum 0.0); ("spectral_rolloff", FNum 0.0);
     ("spectral_contrast", FNum 0.0); ("mfcc_mean", FArr (zeros 13));
     ("mfcc_std", FArr (zeros 13)); ("pitch_mean", FNum 0.0);
     ("pitch_std", FNum 0.0); ("tempo", FNum 120.0);
     ("harmonic_ratio", FNum 0.5); ("percussive_ratio", FNum 0.5);
     ("voice_activity_ratio", FNum 0.5); ("loudness", FNum 0.0);
     ("loudness_std", FNum 0.0); ("jitter", FNum 0.0);
     ("shimmer", FNum 0.0); ("emotional_features", FArr (zeros 13))]%string.

(** The body of [extract_audio_features] once the samples are loaded and
    the zero-crossing rate is known: each [try] group falls back to its
    own defaults. *)
Definition features_of (y : audio) (zcr : float) : gmap string fval :=
  let duration := PyFloat.of_nat (length y) / PyFloat.of_N sample_rate in
  let rms_energy := np_rms_energy NP y in
  let '(centroid, bandwidth, rolloff, contrast) :=
    try_default
      (c ← spectral_centroid L y; b ← spectral_bandwidth L y;
       r ← spectral_rolloff L y; k ← spectral_contrast L y;
       Ok (c, b, r, k))
      (0.0, 0.0, 0.0, 0.0) in
  let '(mfcc_mean, mfcc_std) :=
    try_default
      (mfccs ← mfcc L y;
       Ok (np_mean NP <$> (mfccs : list (list float)),
           np_std NP <$> (mfccs : list (list float))))
      (zeros 13, zeros 13) in
  let '(pitch_mean, pitch_std) :=
    try_default (pv ← pitch_values L y; Ok (pitch_mean_std pv)) (0.0, 0.0) in
  let tempo := try_default (beat_track L y) 120.0 in
  let '(harmonic_ratio, percussive_ratio) :=
    try_default
      ('(harmonic, percussive) ← hpss L y;
       Ok (harmonic / np_sum_sq NP y, percussive / np_sum_sq NP y))
      (0.5, 0.5) in
  let voice_activity_ratio := try_default (voice_activity y) 0.5 in
  let '(loudness, loudness_std) :=
    try_default
      (rms_features ← rms L y;
       Ok (np_mean NP rms_features, np_std NP rms_features))
      (0.0, 0.0) in
  list_to_map
    [("duration", FNum duration); ("rms_energy", FNum rms_energy);
     ("zero_crossing_rate", FNum zcr); ("spectral_centroid", FNum centroid);
     ("spectral_bandwidth", FNum bandwidth);
     ("spectral_rolloff", FNum rolloff);
     ("spectral_contrast", FNum contrast); ("mfcc_mean", FArr mfcc_mean);
     ("mfcc_std", FArr mfcc_std); ("pitch_mean", FNum pitch_mean);
     ("pitch_std", FNum pitch_std); ("tempo", FNum tempo);
     ("harmonic_ratio", FNum harmonic_ratio);
     ("percussive_ratio", FNum percussive_ratio);
     ("voice_activity_ratio", FNum voice_activity_ratio);
     ("loudness", FNum loudness); ("loudness_std", FNum loudness_std);
     ("jitter", FNum (calculate_jitter y));
     ("shimmer", FNum (calculate_shimmer y));
     ("emotional_features", FArr (extract_emotional_features y))]%string.

(** [y[:sample_rate * max_length]] when the clip is too long. *)
Definition truncate (y : audio) : audio :=
  if (sample_rate * max_length <? N.of_nat (length y))%N
  then take (N.to_nat (sample_rate * max_length)) y
  else y.

(** [extract_audio_features] *)
Definition extract_audio_features (audio_path : string) : gmap string fval :=
  try_default
    (y ← load L audio_path;
     let y := truncate y in
     zcr ← zero_crossing_rate L y;
     Ok (features_of y zcr))
    get_default_features.

(** *** Voice characteristics *)

(** [_analyze_speaking_rate] *)
Definition analyze_speaking_rate (y : audio) : float :=
  try_default
    (onsets ← onset_detect L y;
     if (onsets <? 2)%nat then Ok 0.0
     else
       let duration := PyFloat.of_nat (length y) / PyFloat.of_N sample_rate in
       let word_estimate := PyFloat.of_nat onsets * 0.7 in
       per_second ← PyFloat.div word_estimate duration;
       Ok (per_second * 60)) 0.0.

(** [_analyze_volume_variation] *)
Definition analyze_volume_variation (y : audio) : float :=
  try_default
    (r ← rms L y;
     let volume_std := np_std NP r in
     let volume_mean := np_mean NP r in
     if PyFloat.gt volume_mean 0 then Ok (volume_std / volume_mean)
     else Ok 0.0) 0.0.

(** [_analyze_pitch_variation] *)
Definition analyze_pitch_variation (y : audio) : float :=
  try_default
    (pv ← pitch_values L y;
     if (length pv <? 2)%nat then Ok 0.0
     else
       let pitch_std := np_std NP pv in
       let pitch_mean := np_mean NP pv in
       if PyFloat.gt pitch_mean 0 then Ok (pitch_std / pitch_mean)
       else Ok 0.0) 0.0.

(** [_analyze_stress_indicators] *)
Definition analyze_stress_indicators (y : audio) : float :=
  try_default
    (let jitter := calculate_jitter y in
     let shimmer := calculate_shimmer y in
     centroid ← stft_centroid L y;
     let stress_score :=
       (jitter * 0.4 + shimmer * 0.4 + centroid * 0.2) / 1000 in
     Ok (PyFloat.min stress_score 1.0)) 0.0.

(** [_analyze_aggression_indicators] *)
Definition analyze_aggression_indicators (y : audio) : float :=
  try_default
    (r ← rms L y;
     let loudness := np_mean NP r in
     bandwidth ← stft_bandwidth L y;
     tempo ← beat_track L y;
     let aggression_score :=
       (loudness * 0.4 + bandwidth * 0.3 + tempo * 0.3) / 1000 in
     Ok (PyFloat.min aggression_score 1.0)) 0.0.

(** [analyze_voice_characteristics] *)
Definition analyze_voice_characteristics (audio_path : string)
    : gmap string float :=
  try_default
    (y ← load L audio_path;
     Ok (list_to_map
           [("speaking_rate", analyze_speaking_rate y);
            ("volume_variation", analyze_volume_variation y);
            ("pitch_variation", analyze_pitch_variation y);
            ("stress_indicators", analyze_stress_indicators y);
            ("aggression_indicators", analyze_aggression_indicators y)]%string))
    ∅.

(** *** The classifier input *)

(** A scalar slot: [features.get(key, 0)].  An array there makes the
    final [np.array(..., dtype=np.float32)] fail. *)
Definition get_scalar (features : gmap string fval) (key : string)
    : result float :=
  match default (FNum 0) (features !! key) with
  | FNum x => Ok x
  | FArr _ => Raise
  end.

Fixpoint get_scalars (features : gmap string fval) (keys : list string)
    : result (list float) :=
  match keys with
  | [] => Ok []
  | key :: rest =>
      x ← get_scalar features key;
      xs ← get_scalars features rest;
      Ok (x :: xs)
  end.

(** [np.pad(a, (0, max(0, 13 - len(a))))[:13]] *)
Definition pad_crop (a : list float) : list float :=
  take 13 (a ++ zeros (13 - length a)).

(** An array slot, padded or cropped to 13 values; [len] of a number
    raises. *)
Definition get_array (features : gmap string fval) (key : string)
    : result (list float) :=
  match default (FArr (zeros 13)) (features !! key) with
  | FArr a => Ok (pad_crop a)
  | FNum _ => Raise
  end.

Definition basic_keys : list string :=
  ["duration"; "rms_energy"; "zero_crossing_rate"; "spectral_centroid";
   "spectral_bandwidth"; "spectral_rolloff"; "spectral_contrast";
   "harmonic_ratio"; "percussive_ratio"; "voice_activity_ratio";
   "loudness"; "loudness_std"; "jitter"; "shimmer"]%string.

Definition pitch_keys : list string := ["pitch_mean"; "pitch_std"]%string.

Definition voice_keys : list string :=
  ["speaking_rate"; "volume_variation"; "pitch_variation";
   "stress_indicators"; "aggression_indicators"]%string.

(** [voice_analysis.get(key, 0)] *)
Definition voice_get (voice_analysis : gmap string float) (key : string)
    : float :=
  default 0 (voice_analysis !! key).

(** [_create_feature_vector] *)
Definition create_feature_vector (features : gmap string fval)
    (voice_analysis : gmap string float) : result (list float) :=
  basic ← get_scalars features basic_keys;
  mfcc_mean ← get_array features "mfcc_mean";
  mfcc_std ← get_array features "mfcc_std";
  pitch ← get_scalars features pitch_keys;
  emotional_features ← get_array features "emotional_features";
  let voice := voice_get voice_analysis <$> voice_keys in
  Ok (np_float32 NP <$>
        (basic ++ mfcc_mean ++ mfcc_std ++ pitch ++ emotional_features
           ++ voice)).

(** *** Scoring *)

(** The audio score of [_rule_based_prediction]. *)
Definition rule_based_score (voice_analysis : gmap string float) : float :=
  let score := 0.0 in
  let score :=
    if PyFloat.gt (voice_get voice_analysis "stress_indicators") 0.7
    then score + 0.3 else score in
  let score :=
    if PyFloat.gt (voice_get voice_analysis "aggression_indicators") 0.7
    then score + 0.4 else score in
  let score :=
    if PyFloat.gt (voice_get voice_analysis "volume_variation") 0.5
    then score + 0.2 else score in
  let score :=
    if PyFloat.gt (voice_get voice_analysis "pitch_variation") 0.5
    then score + 0.1 else score in
  score.

(** [_get_prediction_from_score] *)
Definition get_prediction_from_score (score : float) : Z :=
  if PyFloat.gt score 0.7 then 2
  else if PyFloat.gt score 0.4 then 1
  else 0.

(** [_rule_based_prediction]; the feature dictionary is not read. *)
Definition rule_based_prediction (features : gmap string fval)
    (voice_analysis : gmap string float) : Z * float :=
  let score := rule_based_score voice_analysis in
  if PyFloat.gt score 0.7 then (2%Z, score)
  else if PyFloat.gt score 0.4 then (1%Z, score)
  else (0%Z, score).

(** [_map_prediction_to_label] *)
Definition map_prediction_to_label (prediction : Z) : Label * string :=
  if (prediction =? 0)%Z then (Safe, "✅"%string)
  else if (prediction =? 1)%Z then (Offensive, "❗"%string)
  else (Threat, "⚠"%string).

(** [sum(1 for pattern in patterns if re.search(pattern, text_lower))] *)
Definition count_matches (patterns : list Re.regex) (text_lower : text)
    : nat :=
  length (List.filter (λ pattern, Re.search (unicode C) false pattern text_lower)
            patterns).

(** One keyword category: [count * weight] capped at [cap], when some
    pattern occurs. *)
Definition category_score (score : float) (count : nat) (weight cap : float)
    : float :=
  if (0 <? count)%nat
  then score + PyFloat.min (PyFloat.of_nat count * weight) cap
  else score.

(** [_analyze_transcription] *)
Definition analyze_transcription (transcription : text) : float :=
  if negb (truthy transcription) then 0.0
  else
    let score := 0.0 in
    let text_lower := uni_lower (unicode C) transcription in
    let score :=
      category_score score (count_matches threat_keywords text_lower) 0.3 0.6 in
    let score :=
      category_score score (count_matches distress_indicators text_lower) 0.2 0.4 in
    let score :=
      category_score score (count_matches scam_indicators text_lower) 0.25 0.5 in
    PyFloat.min score 1.0.

(** *** Prediction *)

(** Truth value of [self.rf_classifier]: an ensemble answers with the
    length of [estimators_], and asking an unfitted one raises
    [AttributeError]. *)
Definition rf_truth : result (option RandomForest) :=
  match rf_classifier C with
  | None => Ok None
  | Some rf =>
      match estimators_ rf with
      | None => Raise
      | Some n => Ok (if (0 <? n)%nat then Some rf else None)
      end
  end.

Definition forest_prediction (rf : RandomForest) (feature_vector : list float)
    : result (Z * float) :=
  feature_vector_scaled ← scaler_transform C feature_vector;
  prediction ← rf_predict rf feature_vector_scaled;
  audio_score ← rf_predict_proba_max rf feature_vector_scaled;
  Ok (prediction, audio_score).

(** The branch [if features:] shared by both modes: the forest when it is
    there and answers, the rules otherwise. *)
Definition audio_prediction (features : gmap string fval)
    (voice_analysis : gmap string float) : result (Z * float) :=
  feature_vector ← create_feature_vector features voice_analysis;
  fitted ← rf_truth;
  match fitted with
  | Some rf =>
      try_except (forest_prediction rf feature_vector)
        (Ok (rule_based_prediction features voice_analysis))
  | None => Ok (rule_based_prediction features voice_analysis)
  end.

Definition dict_nonempty (features : gmap string fval) : bool :=
  negb (size features =? 0)%nat.

Definition safe_default : Label * string * float := (Safe, "✅"%string, 0.5).

(** Fast mode. *)
Definition predict_fast (audio_path : string) : result (Label * string * float) :=
  let features := extract_audio_features audio_path in
  let voice_analysis := analyze_voice_characteristics audio_path in
  '(prediction, audio_score) ←
    (if dict_nonempty features
     then audio_prediction features voice_analysis
     else Ok (rule_based_prediction features voice_analysis));
  let '(label, emoji) := map_prediction_to_label prediction in
  Ok (label, emoji, audio_score).

(** Truth value of [transcription] ([None] and [""] are false). *)
Definition text_truthy (transcription : option text) : bool :=
  match transcription with Some t => truthy t | None => false end.

(** The transcription the full mode works on: the given one, or the
    recognizer's when none is given and a recognizer is loaded. *)
Definition effective_transcription (audio_path : string)
    (transcription : option text) : option text :=
  if negb (text_truthy transcription) && bool_decide (is_Some (speech_recognizer C))
  then Some (transcribe_audio audio_path)
  else transcription.

(** The label of the transcript classifier ([Safe] when there is no
    transcript or the classifier raises; a failure of [predict_scores],
    whose result is never read, leaves the label in place). *)
Definition text_gate (transcription : option text) : Label * string :=
  match transcription with
  | Some (c :: t) =>
      try_default
        (TextModel.predict (unicode C) (text_threat_classifier C) (c :: t))
        (Safe, "✅"%string)
  | _ => (Safe, "✅"%string)
  end.

(** [audio_score] of the full mode. *)
Definition audio_signal (audio_path : string) : float :=
  try_default
    (let features := extract_audio_features audio_path in
     let voice_analysis := analyze_voice_characteristics audio_path in
     if dict_nonempty features
     then snd <$> audio_prediction features voice_analysis
     else Ok 0.0)
    0.0.

Definition negative_emotions : list string :=
  ["angry"; "fear"; "disgust"; "sad"]%string.

(** [emotion_score] *)
Definition emotion_signal (audio_path : string) : float :=
  match emotion_classifier C with
  | Some _ =>
      let emotion_scores := analyze_emotion audio_path in
      if truthy emotion_scores
      then PyFloat.sum ((λ emotion, dict_get emotion 0 emotion_scores)
                          <$> negative_emotions)
      else 0.0
  | None => 0.0
  end.

(** [toxicity_score] and the updated [text_score] *)
Definition toxicity_signal (t : text) (text_score : float) : float * float :=
  match toxicity_classifier C with
  | Some _ =>
      let toxicity_scores := analyze_text_toxicity t in
      if truthy toxicity_scores
      then
        match PyFloat.max_list (dict_values toxicity_scores) with
        | Ok toxicity_score =>
            (toxicity_score, text_score + toxicity_score * 0.3)
        | Raise => (0.0, text_score)
        end
      else (0.0, text_score)
  | None => (0.0, text_score)
  end.

(** [sentiment_score] and the updated [text_score] *)
Definition sentiment_signal (t : text) (text_score : float) : float * float :=
  match sentiment_analyzer C with
  | Some _ =>
      let sentiment_scores := analyze_sentiment t in
      if truthy sentiment_scores
      then
        let negative_sentiment := dict_get "negative" 0 sentiment_scores in
        (negative_sentiment, text_score + negative_sentiment * 0.3)
      else (0.0, text_score)
  | None => (0.0, text_score)
  end.

(** [(text_score, toxicity_score, sentiment_score)] *)
Definition text_signals (transcription : option text) : float * float * float :=
  match transcription with
  | Some (c :: t) =>
      let keyword_score := analyze_transcription (c :: t) in
      let text_score := 0.0 + keyword_score * 0.4 in
      let '(toxicity_score, text_score) := toxicity_signal (c :: t) text_score in
      let '(sentiment_score, text_score) := sentiment_signal (c :: t) text_score in
      (text_score, toxicity_score, sentiment_score)
  | _ => (0.0, 0.0, 0.0)
  end.

Definition final_score (audio_score text_score emotion_score toxicity_score
    sentiment_score : float) : float :=
  audio_score * 0.3 + text_score * 0.3 + emotion_score * 0.2
  + toxicity_score * 0.1 + sentiment_score * 0.1.

(** The weighted fusion. *)
Definition fused (audio_path : string) (transcription : option text)
    : Label * string * float :=
  let '(text_score, toxicity_score, sentiment_score) :=
    text_signals transcription in
  let score :=
    final_score (audio_signal audio_path) text_score
      (emotion_signal audio_path) toxicity_score sentiment_score in
  let '(label, emoji) :=
    map_prediction_to_label (get_prediction_from_score score) in
  (label, emoji, score).

(** Full mode. *)
Definition predict_full (audio_path : string) (transcription : option text)
    : result (Label * string * float) :=
  let transcription := effective_transcription audio_path transcription in
  let '(text_label, text_emoji) := text_gate transcription in
  match text_label with
  | Threat => Ok (Threat, text_emoji, 1.0)
  | Offensive => Ok (Offensive, text_emoji, 0.8)
  | Safe => Ok (fused audio_path transcription)
  end.

(** The body of [predict], inside its outermost [try]. *)
Definition predict_body (audio_path : string) (transcription : option text)
    (fast_mode : bool) : result (Label * string * float) :=
  if negb (os_path_exists C audio_path) then Ok safe_default
  else if fast_mode then predict_fast audio_path
  else predict_full audio_path transcription.

(** [predict] *)
Definition predict (audio_path : string) (transcription : option text)
    (fast_mode : bool) : result (Label * string * float) :=
  try_except (predict_body audio_path transcription fast_mode)
    (Ok safe_default).

End Classifier.

End VoiceModel.

(** ** [queue.Queue] *)

Module Queue.

(** A FIFO queue; [maxsize <= 0] means that its size is not limited. *)
Record t (A : Type) : Type := mk { maxsize : nat; items : list A }.
Arguments mk {A} maxsize items.
Arguments maxsize {A} _.
Arguments items {A} _.

Section Operations.
Context {A : Type}.

(** [queue.Queue(maxsize)]; [queue.Queue()] is [new 0]. *)
Definition new (maxsize : nat) : t A := mk maxsize [].

Definition qsize (q : t A) : nat := length (items q).

Definition empty (q : t A) : bool :=
  match items q with [] => true | _ :: _ => false end.

Definition full (q : t A) : bool :=
  (0 <? maxsize q)%nat && (maxsize q <=? qsize q)%nat.

(** [q.put(x)]: appended at the back; on a full queue the caller blocks
    ([None]) and the queue is left as it is. *)
Definition put (q : t A) (x : A) : option (t A) :=
  if full q then None else Some (mk (maxsize q) (items q ++ [x])).

(** [q.get_nowait()]: the front item, [queue.Empty] when there is none. *)
Definition get_nowait (q : t A) : result (A * t A) :=
  match items q with
  | [] => Raise
  | x :: rest => Ok (x, mk (maxsize q) rest)
  end.

End Operations.

End Queue.

(** ** Real-time monitoring *)

Module Monitor.
Import VoiceModel.

(** [alert_data] *)
Record Alert : Type := {
  type : string;
  label : Label;
  confidence : float;
  timestamp : float;
  audio_file : string;
  emoji : string
}.

(** The two attributes shared by the host and the worker thread. *)
Record State : Type := {
  is_monitoring : bool;
  alert_queue : Queue.t Alert
}.

(** [__init__] *)
Definition init : State :=
  {| is_monitoring := false; alert_queue := Queue.new 0 |}.

(** The host's callbacks, which may raise. *)
Record Callbacks : Type := {
  audio_callback : option (audio → Label → float → result unit);
  alert_callback : option (Alert → result unit)
}.

(** Calls made to the host, in order. *)
Inductive call : Type :=
  | AlertCall (alert_data : Alert)
  | AudioCall (audio_chunk : audio) (label : Label) (confidence : float).

Definition is_alert_call (c : call) : bool :=
  match c with AlertCall _ => true | AudioCall _ _ _ => false end.

(** [if audio_callback: audio_callback(audio_chunk, label, confidence)] *)
Definition call_audio (cb : Callbacks) (audio_chunk : audio) (l : Label)
    (c : float) : list call :=
  match audio_callback cb with
  | Some _ => [AudioCall audio_chunk l c]
  | None => []
  end.

(** The analysis of one recorded chunk, the [try] block of
    [monitoring_worker]: [tmp] is the name of the temporary file the chunk
    was written to and [now] the value of [time.time()].  [None] stands for
    a worker blocked in [put]. *)
Definition analyze_chunk (C : VoiceThreatClassifier) (cb : Callbacks)
    (tmp : string) (now : float) (audio_chunk : audio) (st : State)
    : option (State * list call) :=
  match predict C tmp None true with
  | Raise => Some (st, [])
  | Ok (l, e, c) =>
      if bool_decide (l ∈ [Threat; Offensive]) && PyFloat.gt c 0.6 then
        let alert_data :=
          {| type := "voice_threat"; label := l; confidence := c;
             timestamp := now; audio_file := tmp; emoji := e |} in
        match Queue.put (alert_queue st) alert_data with
        | None => None
        | Some q =>
            let st' := {| is_monitoring := is_monitoring st; alert_queue := q |} in
            match alert_callback cb with
            | Some f =>
                match f alert_data with
                | Ok _ =>
                    Some (st', AlertCall alert_data :: call_audio cb audio_chunk l c)
                | Raise => Some (st', [AlertCall alert_data])
                end
            | None => Some (st', call_audio cb audio_chunk l c)
            end
        end
      else Some (st, call_audio cb audio_chunk l c)
  end.

(** [start_real_time_monitoring] *)
Definition start_real_time_monitoring (st : State) : State :=
  {| is_monitoring := true; alert_queue := Queue.new 0 |}.

(** [stop_real_time_monitoring] *)
Definition stop_real_time_monitoring (st : State) : State :=
  {| is_monitoring := false; alert_queue := alert_queue st |}.

(** The loop of [get_alerts], at most [n] rounds. *)
Fixpoint get_alerts_loop (n : nat) (q : Queue.t Alert) (alerts : list Alert)
    : list Alert * Queue.t Alert :=
  match n with
  | O => (alerts, q)
  | S n' =>
      if Queue.empty q then (alerts, q)
      else
        match Queue.get_nowait q with
        | Ok (a, q') => get_alerts_loop n' q' (alerts ++ [a])
        | Raise => (alerts, q)
        end
  end.

(** [get_alerts]: every round removes one alert, so one round more than
    the queue holds reaches the empty queue. *)
Definition get_alerts (st : State) : list Alert * State :=
  let '(alerts, q) :=
    get_alerts_loop (S (Queue.qsize (alert_queue st))) (alert_queue st) [] in
  (alerts, {| is_monitoring := is_monitoring st; alert_queue := q |}).

(** [put] of each alert in turn. *)
Definition put_all (q : Queue.t Alert) (alerts : list Alert) : Queue.t Alert :=
  foldl (λ q a, default q (Queue.put q a)) q alerts.

(** The queue was made by [queue.Queue()]: no capacity. *)
Definition unbounded (st : State) : Prop :=
  Queue.maxsize (alert_queue st) = 0%nat.

(** What the host and the worker do to the shared state.  An iteration of
    the worker loop runs when [is_monitoring] holds at its head; a capture
    that raises ends the loop and clears the flag. *)
Inductive event : Type :=
  | Start
  | Stop
  | GetAlerts
  | Chunk (cb : Callbacks) (tmp : string) (now : float) (audio_chunk : audio)
  | CaptureFailure.

Definition step (C : VoiceThreatClassifier) (st : State) (ev : event) : State :=
  match ev with
  | Start => start_real_time_monitoring st
  | Stop => stop_real_time_monitoring st
  | GetAlerts => (get_alerts st).2
  | Chunk cb tmp now audio_chunk =>
      if is_monitoring st then
        match analyze_chunk C cb tmp now audio_chunk st with
        | Some (st', _) => st'
        | None => st
        end
      else st
  | CaptureFailure =>
      {| is_monitoring := false; alert_queue := alert_queue st |}
  end.

(** The state after a history of events, from a fresh classifier. *)
Definition run (C : VoiceThreatClassifier) (evs : list event) : State :=
  foldl (step C) init evs.

End Monitor.

(** ** Concrete collaborators, for running the definitions *)

Module Examples.
Import VoiceModel.

Definition ascii_lower (c : N) : N :=
  if ((65 <=? c) && (c <=? 90))%N then (c + 32)%N else c.

Definition ascii_isdigit (c : N) : bool := ((48 <=? c) && (c <=? 57))%N.

Definition ascii_isalpha (c : N) : bool :=
  let l := ascii_lower c in ((97 <=? l) && (l <=? 122))%N.

(** The Unicode tables on ASCII text. *)
Definition ascii_tables : UnicodeDB :=
  {| uni_isdigit := ascii_isdigit;
     uni_isspace c :=
       ((c =? 32) || ((9 <=? c) && (c <=? 13)) || ((28 <=? c) && (c <=? 31)))%N;
     uni_isword c := ascii_isdigit c || ascii_isalpha c || (c =? 95)%N;
     uni_ieq p c := (ascii_lower p =? ascii_lower c)%N;
     uni_lower := fmap ascii_lower |}.

(** No audio backend: every librosa call raises. *)
Definition no_librosa : Librosa :=
  {| load _ := Raise; zero_crossing_rate _ := Raise;
     spectral_centroid _ := Raise; spectral_bandwidth _ := Raise;
     spectral_rolloff _ := Raise; spectral_contrast _ := Raise;
     stft_centroid _ := Raise; stft_bandwidth _ := Raise;
     mfcc _ := Raise; pitch_values _ := Raise; beat_track _ := Raise;
     hpss _ := Raise; rms _ := Raise; onset_detect _ := Raise;
     emotional _ := Raise |}.

(** A three-second clip at 16 kHz. *)
Definition clip : audio := replicate (N.to_nat 48000) 0.25.

(** A backend that loads [clip], finds ten onsets in it and a spectral
    centroid of 6 kHz; the other estimators raise. *)
Definition onset_librosa : Librosa :=
  {| load _ := Ok clip; zero_crossing_rate _ := Raise;
     spectral_centroid _ := Raise; spectral_bandwidth _ := Raise;
     spectral_rolloff _ := Raise; spectral_contrast _ := Raise;
     stft_centroid _ := Ok 6000; stft_bandwidth _ := Raise;
     mfcc _ := Raise; pitch_values _ := Raise; beat_track _ := Raise;
     hpss _ := Raise; rms _ := Raise; onset_detect _ := Ok 10%nat;
     emotional _ := Raise |}.

(** A backend that loads a clip of no samples and measures a zero-crossing
    rate of 0 on it; the other estimators raise. *)
Definition empty_librosa : Librosa :=
  {| load _ := Ok []; zero_crossing_rate _ := Ok 0;
     spectral_centroid _ := Raise; spectral_bandwidth _ := Raise;
     spectral_rolloff _ := Raise; spectral_contrast _ := Raise;
     stft_centroid _ := Raise; stft_bandwidth _ := Raise;
     mfcc _ := Raise; pitch_values _ := Raise; beat_track _ := Raise;
     hpss _ := Raise; rms _ := Raise; onset_detect _ := Raise;
     emotional _ := Raise |}.

(** A backend that loads [clip] and measures four frame energies, three
    silent frames and a burst; the other estimators raise. *)
Definition burst_librosa : Librosa :=
  {| load _ := Ok clip; zero_crossing_rate _ := Raise;
     spectral_centroid _ := Raise; spectral_bandwidth _ := Raise;
     spectral_rolloff _ := Raise; spectral_contrast _ := Raise;
     stft_centroid _ := Raise; stft_bandwidth _ := Raise;
     mfcc _ := Raise; pitch_values _ := Raise; beat_track _ := Raise;
     hpss _ := Raise; rms _ := Ok [0; 0; 0; 0.8]; onset_detect _ := Raise;
     emotional _ := Raise |}.

Definition mean (l : list float) : float :=
  PyFloat.sum l / PyFloat.of_nat (length l).

Definition square (x : float) : float := x * x.

Definition std (l : list float) : float :=
  PrimFloat.sqrt (mean ((λ x, square (x - mean l)) <$> l)).

Definition diff (l : list float) : list float :=
  zip_with (λ a b, b - a) l (tail l).

(** The reductions computed from left to right at double precision. *)
Definition double_numpy : Numpy :=
  {| np_mean := mean;
     np_std := std;
     np_max l :=
       match l with
       | [] => Raise
       | x :: rest => Ok (foldl (λ m y, if PyFloat.lt m y then y else m) x rest)
       end;
     np_rms_energy y := PrimFloat.sqrt (mean (square <$> y));
     np_sum_sq y := PyFloat.sum (square <$> y);
     np_mean_abs_diff l := mean (PrimFloat.abs <$> diff l);
     np_float32 x := x |}.

(** A classifier whose pretrained models all failed to load. *)
Definition classifier (exists_ : string → bool) (L : Librosa)
    (rf : option RandomForest) : VoiceThreatClassifier :=
  {| unicode := ascii_tables;
     os_path_exists := exists_;
     librosa := L;
     numpy := double_numpy;
     scaler_transform v := Ok v;
     rf_classifier := rf;
     emotion_classifier := None;
     speech_recognizer := None;
     toxicity_classifier := None;
     sentiment_analyzer := None;
     text_threat_classifier := {| TextModel.model_probs _ := Raise |} |}.

(** A fitted forest that answers class 2 with probability [p]. *)
Definition forest (p : float) : RandomForest :=
  {| estimators_ := Some 100%nat;
     rf_predict _ := Ok 2%Z;
     rf_predict_proba_max _ := Ok p |}.

(** No file exists. *)
Definition offline : VoiceThreatClassifier :=
  classifier (λ _, false) no_librosa None.

(** Every file exists. *)
Definition online : VoiceThreatClassifier :=
  classifier (λ _, true) no_librosa None.

Definition with_forest (p : float) : VoiceThreatClassifier :=
  classifier (λ _, true) no_librosa (Some (forest p)).

Definition with_onsets : VoiceThreatClassifier :=
  classifier (λ _, true) onset_librosa None.

Definition with_empty_clip : VoiceThreatClassifier :=
  classifier (λ _, true) empty_librosa None.

Definition with_burst : VoiceThreatClassifier :=
  classifier (λ _, true) burst_librosa None.

Definition threat_text : text := str "I will kill you".

Definition money_threat_text : text :=
  str "transfer the money to my account or I will kill you".

(** Scenario B: high stress and aggression, nothing else. *)
Definition scenario_B : gmap string float :=
  <["stress_indicators" := 0.9]> (<["aggression_indicators" := 0.9]> ∅).

Definition calm : gmap string float :=
  <["stress_indicators" := 0.2]> (<["aggression_indicators" := 0.1]> ∅).

Definition no_callbacks : Monitor.Callbacks :=
  {| Monitor.audio_callback := None; Monitor.alert_callback := None |}.

Definition both_callbacks : Monitor.Callbacks :=
  {| Monitor.audio_callback := Some (λ _ _ _, Ok ());
     Monitor.alert_callback := Some (λ _, Ok ()) |}.

(** A history with [n] recorded chunks after the start. *)
Definition alarming (n : nat) : list Monitor.event :=
  Monitor.Start :: replicate n (Monitor.Chunk no_callbacks "chunk.wav" 0 []).

End Examples.

(** Case analysis on the groups of a feature dictionary. *)
Ltac split_groups :=
  repeat match goal with
         | |- context [match ?t with pair _ _ => _ end] => destruct t
         end.

(** ** The answer of a prediction *)

(** [label, emoji = self._map_prediction_to_label(prediction)] with the
    score beside them. *)
Definition labelled (r : Z * float) : Label * string * float :=
  (VoiceModel.map_prediction_to_label r.1, r.2).

(** ** [model/text_model.py]: scanning a line *)

Module TextScan.
Import TextModel.

(** [line_scores.get(lbl, 0)] *)
Definition get (line_scores : list (string * float)) (lbl : string) : float :=
  VoiceModel.dict_get lbl 0 line_scores.

Definition offensive_labels : list string :=
  ["toxic"; "obscene"; "severe_toxic"; "insult"; "identity_hate";
   "sexual_explicit"]%string.

(** The default of the [threshold] argument. *)
Definition default_threshold : float := 0.2.

(** [TextThreatClassifier.extract_threat_offensive_words] *)
Definition extract_threat_offensive_words (M : TextThreatClassifier)
    (t : text) (threshold : float) : result (list (text * Label)) :=
  line_scores ← predict_scores M t;
  if PyFloat.gt (get line_scores "threat") threshold then Ok [(t, Threat)]
  else if existsb (λ lbl, PyFloat.gt (get line_scores lbl) threshold)
            offensive_labels
  then Ok [(t, Offensive)]
  else Ok [].

End TextScan.

(** ** [model/voice_model.py]: training and pitch patterns *)

Module VoiceTools.
Import VoiceModel.

(** The loop of [train] over the labelled files: one vector and one label
    for every file whose feature dictionary is non-empty. *)
Fixpoint training_vectors (C : VoiceThreatClassifier)
    (training_data : list (string * Z)) : result (list (list float) * list Z) :=
  match training_data with
  | [] => Ok ([], [])
  | (audio_path, label) :: rest =>
      let features := extract_audio_features C audio_path in
      let voice_analysis := analyze_voice_characteristics C audio_path in
      if dict_nonempty features then
        feature_vector ← create_feature_vector C features voice_analysis;
        '(features_list, labels) ← training_vectors C rest;
        Ok (feature_vector :: features_list, label :: labels)
      else training_vectors C rest
  end.

(** scikit-learn's fitting: the refitted scaler's [transform] with the
    scaled samples, the refitted forest, its accuracy.  A fit that raises
    leaves its object as it was. *)
Record Sklearn : Type := {
  fit_transform :
    list (list float) →
    result ((list float → result (list float)) * list (list float));
  fit : RandomForest → list (list float) → list Z → result RandomForest;
  score : RandomForest → list (list float) → list Z → result float
}.

(** [self.scaler] after a fit. *)
Definition with_scaler (C : VoiceThreatClassifier)
    (transform : list float → result (list float)) : VoiceThreatClassifier :=
  {| unicode := unicode C;
     os_path_exists := os_path_exists C;
     librosa := librosa C;
     numpy := numpy C;
     scaler_transform := transform;
     rf_classifier := rf_classifier C;
     emotion_classifier := emotion_classifier C;
     speech_recognizer := speech_recognizer C;
     toxicity_classifier := toxicity_classifier C;
     sentiment_analyzer := sentiment_analyzer C;
     text_threat_classifier := text_threat_classifier C |}.

(** [self.rf_classifier] after a fit. *)
Definition with_classifier (C : VoiceThreatClassifier) (rf : RandomForest)
    : VoiceThreatClassifier :=
  {| unicode := unicode C;
     os_path_exists := os_path_exists C;
     librosa := librosa C;
     numpy := numpy C;
     scaler_transform := scaler_transform C;
     rf_classifier := Some rf;
     emotion_classifier := emotion_classifier C;
     speech_recognizer := speech_recognizer C;
     toxicity_classifier := toxicity_classifier C;
     sentiment_analyzer := sentiment_analyzer C;
     text_threat_classifier := text_threat_classifier C |}.

(** [train]: the classifier afterwards.  Every exception is caught and
    printed; the accuracy is only printed. *)
Definition train (S : Sklearn) (C : VoiceThreatClassifier)
    (training_data : list (string * Z)) : VoiceThreatClassifier :=
  match training_vectors C training_data with
  | Raise => C
  | Ok (features_list, labels) =>
      if (length features_list <? 10)%nat then C
      else
        match fit_transform S features_list with
        | Raise => C
        | Ok (transform, X_scaled) =>
            let C' := with_scaler C transform in
            match rf_classifier C with
            | None => C'
            | Some rf =>
                match fit S rf X_scaled labels with
                | Raise => C'
                | Ok rf' => with_classifier C' rf'
                end
            end
        end
  end.

(** The estimators of [detect_voice_patterns] beside those of the
    classifier: the pitches whose magnitude is above the 85th percentile,
    and [np.min]. *)
Record PitchTools : Type := {
  strong_pitch_values : audio → result (list float);
  np_min : list float → result float
}.

(** [np.diff] *)
Definition np_diff (v : list float) : list float :=
  zip_with (λ a b, b - a) v (tail v).

Definition no_pattern : gmap string float := {[ "pattern_score"%string := 0.0 ]}.

(** [detect_voice_patterns] *)
Definition detect_voice_patterns (C : VoiceThreatClassifier) (P : PitchTools)
    (audio_path : string) : gmap string float :=
  try_default
    (y ← load (librosa C) audio_path;
     pitch_values ← strong_pitch_values P y;
     if (length pitch_values =? 0)%nat then Ok no_pattern
     else
       let pitch_mean := np_mean (numpy C) pitch_values in
       let pitch_std := np_std (numpy C) pitch_values in
       highest ← np_max (numpy C) pitch_values;
       lowest ← np_min P pitch_values;
       let pitch_range := highest - lowest in
       let pitch_changes := np_diff pitch_values in
       let limit := np_std (numpy C) pitch_changes * 1.5 in
       let rapid_changes :=
         length (List.filter (λ d, PyFloat.gt (PrimFloat.abs d) limit)
                   pitch_changes) in
       let rapid_change_ratio :=
         if (0 <? length pitch_changes)%nat
         then PyFloat.of_nat rapid_changes / PyFloat.of_nat (length pitch_changes)
         else 0 in
       let monotone_score :=
         if PyFloat.gt pitch_mean 0 then 1.0 - pitch_std / pitch_mean else 0 in
       let pattern_score :=
         if PyFloat.gt pitch_mean 0
         then rapid_change_ratio * 0.4 + monotone_score * 0.3
              + (pitch_range / pitch_mean) * 0.3
         else 0 in
       Ok (list_to_map
             [("pitch_mean", pitch_mean); ("pitch_std", pitch_std);
              ("pitch_range", pitch_range);
              ("rapid_changes", rapid_change_ratio);
              ("monotone_score", monotone_score);
              ("pattern_score", pattern_score)]%string))
    no_pattern.

End VoiceTools.

(** ** A monitoring session with what it hands to the host *)

Module Session.
Import VoiceModel Monitor.

(** The shared state, the calls made to the host's callbacks and the alerts
    handed over by [get_alerts], in order. *)
Record Outcome : Type := {
  state : State;
  calls : list call;
  polled : list Alert
}.

Definition step (C : VoiceThreatClassifier) (o : Outcome) (ev : event)
    : Outcome :=
  match ev with
  | GetAlerts =>
      let '(alerts, st) := get_alerts (state o) in
      {| state := st; calls := calls o; polled := polled o ++ alerts |}
  | Chunk cb tmp now audio_chunk =>
      if is_monitoring (state o) then
        match analyze_chunk C cb tmp now audio_chunk (state o) with
        | Some (st, cs) =>
            {| state := st; calls := calls o ++ cs; polled := polled o |}
        | None => o
        end
      else o
  | _ =>
      {| state := Monitor.step C (state o) ev; calls := calls o;
         polled := polled o |}
  end.

(** From [start_real_time_monitoring] on. *)
Definition begin (st : State) : Outcome :=
  {| state := start_real_time_monitoring st; calls := []; polled := [] |}.

Definition run (C : VoiceThreatClassifier) (o : Outcome) (evs : list event)
    : Outcome :=
  foldl (step C) o evs.

(** The alerts the alert callback was called with. *)
Definition alert_calls (cs : list call) : list Alert :=
  omap (λ c, match c with AlertCall a => Some a | AudioCall _ _ _ => None end) cs.

(** The monitoring is not started anew, and a chunk is analysed with an
    alert callback. *)
Definition listening (ev : event) : Prop :=
  match ev with
  | Start => False
  | Chunk cb _ _ _ => is_Some (alert_callback cb)
  | _ => True
  end.

(** An alert as the worker builds it. *)
Definition well_formed (a : Alert) : Prop :=
  label a ∈ [Threat; Offensive]
  ∧ PyFloat.gt (confidence a) 0.6 = true
  ∧ type a = "voice_threat"%string.

(** Between two iterations of the worker: what the alert callback was
    called with is what was polled followed by what is still queued. *)
Definition in_step (o : Outcome) : Prop :=
  unbounded (state o)
  ∧ alert_calls (calls o) = polled o ++ Queue.items (alert_queue (state o)).

End Session.

(** ** [main.py]: the alert system of the application *)

Module Host.
Import VoiceModel.

(** The settings of the alert tab and the alert counter. *)
Record State : Type := {
  alert_threats : bool;
  alert_offensive : bool;
  sensitivity_var : float;
  alert_counter : nat
}.

(** The widgets as created: both kinds of alert on, sensitivity 0.6. *)
Definition created : State :=
  {| alert_threats := true; alert_offensive := true; sensitivity_var := 0.6;
     alert_counter := 0 |}.

(** [handle_voice_alert], as far as the counter goes: the log, the sound and
    the popup follow the increment and their failures are caught. *)
Definition handle_voice_alert (h : State) (alert_data : Monitor.Alert) : State :=
  if bool_decide (Monitor.label alert_data = Threat) && negb (alert_threats h)
  then h
  else if bool_decide (Monitor.label alert_data = Offensive)
          && negb (alert_offensive h)
  then h
  else if PyFloat.lt (Monitor.confidence alert_data) (sensitivity_var h) then h
  else
    {| alert_threats := alert_threats h;
       alert_offensive := alert_offensive h;
       sensitivity_var := sensitivity_var h;
       alert_counter := S (alert_counter h) |}.

(** [start_alert_system] passes [handle_voice_alert], which catches its own
    exceptions, as the alert callback and no audio callback. *)
Definition callbacks : Monitor.Callbacks :=
  {| Monitor.audio_callback := None;
     Monitor.alert_callback := Some (λ _, Ok ()) |}.

Definition handle_call (h : State) (c : Monitor.call) : State :=
  match c with
  | Monitor.AlertCall alert_data => handle_voice_alert h alert_data
  | Monitor.AudioCall _ _ _ => h
  end.

(** One iteration of the worker, its callback acting on the host. *)
Definition worker_iteration (C : VoiceThreatClassifier) (tmp : string)
    (now : float) (audio_chunk : audio) (s : Monitor.State * State)
    : Monitor.State * State :=
  if Monitor.is_monitoring s.1 then
    match Monitor.analyze_chunk C callbacks tmp now audio_chunk s.1 with
    | Some (m, calls) => (m, foldl handle_call s.2 calls)
    | None => s
    end
  else s.

(** One round of [check_alerts_loop]. *)
Definition check_alerts (s : Monitor.State * State) : Monitor.State * State :=
  let '(alerts, m) := Monitor.get_alerts s.1 in
  (m, foldl handle_voice_alert s.2 alerts).

End Host.

(** ** More concrete collaborators *)

Module Scenarios.
Import VoiceModel.

(** A backend that loads [Examples.clip] and measures a wide and bright
    spectrum at 120 beats per minute; the other estimators raise. *)
Definition harsh_librosa : Librosa :=
  {| load _ := Ok Examples.clip; zero_crossing_rate _ := Raise;
     spectral_centroid _ := Raise; spectral_bandwidth _ := Raise;
     spectral_rolloff _ := Raise; spectral_contrast _ := Raise;
     stft_centroid _ := Ok 6000; stft_bandwidth _ := Ok 4000;
     mfcc _ := Raise; pitch_values _ := Raise; beat_track _ := Ok 120;
     hpss _ := Raise; rms _ := Ok [0.5; 0.5]; onset_detect _ := Raise;
     emotional _ := Raise |}.

Definition harsh : VoiceThreatClassifier :=
  Examples.classifier (λ _, true) harsh_librosa None.

(** A transcript model that finds a threat with probability [p] and nothing
    else. *)
Definition threat_model (p : float) : TextModel.TextThreatClassifier :=
  {| TextModel.model_probs _ := Ok [0; 0; 0; p; 0; 0; 0] |}.

(** A transcript model that finds sexually explicit content only. *)
Definition explicit_model : TextModel.TextThreatClassifier :=
  {| TextModel.model_probs _ := Ok [0; 0; 0; 0; 0; 0; 0.9] |}.

Definition plain_text : text := str "see you at nine".

Definition no_fit : VoiceTools.Sklearn :=
  {| VoiceTools.fit_transform _ := Raise;
     VoiceTools.fit _ _ _ := Raise;
     VoiceTools.score _ _ _ := Raise |}.

Definition no_pitch : VoiceTools.PitchTools :=
  {| VoiceTools.strong_pitch_values _ := Ok [];
     VoiceTools.np_min _ := Raise |}.

End Scenarios.

(** * Properties *)

Import VoiceModel.

(** ** Float comparisons *)

Lemma SFcompare_lt_le_trans (x y z : spec_float) :
  SFltb x y = true → SFleb y z = true → SFltb x z = true.
Proof.
  unfold SFltb, SFleb, SFcompare.
  destruct x as [sx|sx| |sx mx ex], y as [sy|sy| |sy my ey],
           z as [sz|sz| |sz mz ez];
    try destruct sx; try destruct sy; try destruct sz;
    try discriminate; try reflexivity;
    repeat match goal with
    | |- context [(?a ?= ?b)%Z] => destruct (Z.compare_spec a b)
    | |- context [PosDef.Pos.compare_cont Eq ?a ?b] =>
        change (PosDef.Pos.compare_cont Eq a b) with (Pos.compare a b);
        destruct (Pos.compare_spec a b)
    end; cbn [CompOpp]; try discriminate; try reflexivity;
    intros _ _; exfalso; lia.
Qed.

(** [b > c] and [b <= a] give [a > c]. *)
Lemma gt_le_trans (c b a : float) :
  PyFloat.gt b c = true → PyFloat.le b a = true → PyFloat.gt a c = true.
Proof.
  unfold PyFloat.gt, PyFloat.le. rewrite !ltb_spec, leb_spec.
  apply SFcompare_lt_le_trans.
Qed.

(** [min(x, 1.0)] never exceeds 1. *)
Lemma min_one_le (x : float) : PyFloat.gt (PyFloat.min x 1.0) 1.0 = false.
Proof.
  unfold PyFloat.min, PyFloat.gt, PyFloat.lt.
  destruct (1.0 <? x) eqn:E; [reflexivity | exact E].
Qed.

(** ** The rule-based fallback *)

Lemma scenario_B_score : rule_based_score Examples.scenario_B = 0.7.
Proof. vm_compute. reflexivity. Qed.

(** The score is decided by the four threshold tests. *)
Lemma rule_based_score_cases (va : gmap string float) :
  rule_based_score va =
    (let s := 0.0 in
     let s := if PyFloat.gt (voice_get va "stress_indicators") 0.7 then s + 0.3 else s in
     let s := if PyFloat.gt (voice_get va "aggression_indicators") 0.7 then s + 0.4 else s in
     let s := if PyFloat.gt (voice_get va "volume_variation") 0.5 then s + 0.2 else s in
     if PyFloat.gt (voice_get va "pitch_variation") 0.5 then s + 0.1 else s).
Proof. reflexivity. Qed.

(** C2, as amended: with stress and aggression at 0.9 and the two variation
    measures at 0, the fallback score is exactly 0.3 + 0.4 = 0.7, which does
    not exceed the 0.7 threshold: the prediction is class 1, label
    Offensive. *)
Theorem scenario_B_is_offensive (features : gmap string fval)
    (va : gmap string float) :
  voice_get va "stress_indicators" = 0.9 →
  voice_get va "aggression_indicators" = 0.9 →
  voice_get va "volume_variation" = 0 →
  voice_get va "pitch_variation" = 0 →
  rule_based_score va = 0.3 + 0.4
  ∧ rule_based_score va = 0.7
  ∧ rule_based_prediction features va = (1%Z, 0.7)
  ∧ map_prediction_to_label (rule_based_prediction features va).1
      = (Offensive, "❗"%string).
Proof.
  intros Hs Ha Hv Hp.
  assert (rule_based_score va = 0.7) as Hscore.
  { rewrite rule_based_score_cases, Hs, Ha, Hv, Hp. vm_compute. reflexivity. }
  unfold rule_based_prediction. rewrite Hscore.
  repeat split; vm_compute; reflexivity.
Qed.

Lemma scenario_B_is_offensive_witness :
  rule_based_prediction get_default_features Examples.scenario_B = (1%Z, 0.7)
  ∧ map_prediction_to_label
      (rule_based_prediction get_default_features Examples.scenario_B).1
    = (Offensive, "❗"%string).
Proof.
  pose proof (scenario_B_is_offensive get_default_features Examples.scenario_B)
    as H.
  destruct H as (_ & _ & H1 & H2);
    [vm_compute; reflexivity | vm_compute; reflexivity
    | vm_compute; reflexivity | vm_compute; reflexivity | ].
  split; [exact H1 | exact H2].
Defined.

(** C2, as stated, fails: scenario B is labelled Offensive, not Threat. *)
Lemma scenario_B_not_threat :
  rule_based_prediction get_default_features Examples.scenario_B = (1%Z, 0.7)
  ∧ (map_prediction_to_label
       (rule_based_prediction get_default_features Examples.scenario_B).1).1
    = Offensive
  ∧ PyFloat.gt (rule_based_score Examples.scenario_B) 0.7 = false.
Proof. repeat split; vm_compute; reflexivity. Qed.

(** C8: with the two variation measures fixed, raising the stress and
    aggression indicators never lowers the fallback score. *)
Theorem rule_based_score_monotone (va1 va2 : gmap string float) :
  voice_get va1 "volume_variation" = voice_get va2 "volume_variation" →
  voice_get va1 "pitch_variation" = voice_get va2 "pitch_variation" →
  PyFloat.le (voice_get va1 "stress_indicators")
             (voice_get va2 "stress_indicators") = true →
  PyFloat.le (voice_get va1 "aggression_indicators")
             (voice_get va2 "aggression_indicators") = true →
  PyFloat.le (rule_based_score va1) (rule_based_score va2) = true.
Proof.
  intros Hv Hp Hs Ha. rewrite !rule_based_score_cases, Hv, Hp.
  destruct (PyFloat.gt (voice_get va1 "stress_indicators") 0.7) eqn:S1;
    [rewrite (gt_le_trans _ _ _ S1 Hs) |
     destruct (PyFloat.gt (voice_get va2 "stress_indicators") 0.7)];
  (destruct (PyFloat.gt (voice_get va1 "aggression_indicators") 0.7) eqn:A1;
    [rewrite (gt_le_trans _ _ _ A1 Ha) |
     destruct (PyFloat.gt (voice_get va2 "aggression_indicators") 0.7)]);
  destruct (PyFloat.gt (voice_get va2 "volume_variation") 0.5);
  destruct (PyFloat.gt (voice_get va2 "pitch_variation") 0.5);
  vm_compute; reflexivity.
Qed.

Lemma rule_based_score_monotone_witness :
  PyFloat.le (rule_based_score Examples.calm)
             (rule_based_score Examples.scenario_B) = true.
Proof.
  apply (rule_based_score_monotone Examples.calm Examples.scenario_B);
    vm_compute; reflexivity.
Defined.

(** ** Voice characteristics *)

Lemma stress_at_most_one (C : VoiceThreatClassifier) (y : audio) :
  PyFloat.gt (analyze_stress_indicators C y) 1.0 = false.
Proof.
  unfold analyze_stress_indicators.
  destruct (stft_centroid (librosa C) y); cbn; [apply min_one_le | reflexivity].
Qed.

Lemma aggression_at_most_one (C : VoiceThreatClassifier) (y : audio) :
  PyFloat.gt (analyze_aggression_indicators C y) 1.0 = false.
Proof.
  unfold analyze_aggression_indicators.
  destruct (rms (librosa C) y); cbn; [ | reflexivity].
  destruct (stft_bandwidth (librosa C) y); cbn; [ | reflexivity].
  destruct (beat_track (librosa C) y); cbn; [apply min_one_le | reflexivity].
Qed.

(** C5, as amended: the stress and aggression indicators of the returned
    mapping never exceed 1.0, being clamped by [min(score, 1.0)] (and 0.0
    when an estimator fails); no bound is put on the other three entries. *)
Theorem clamped_indicators (C : VoiceThreatClassifier) (audio_path : string) :
  ∀ (key : string) (v : float),
    analyze_voice_characteristics C audio_path !! key = Some v →
    key = "stress_indicators"%string ∨ key = "aggression_indicators"%string →
    PyFloat.gt v 1.0 = false.
Proof.
  intros key v Hv Hkey. unfold analyze_voice_characteristics in Hv.
  destruct (load (librosa C) audio_path) as [y|]; cbn in Hv;
    [ | rewrite lookup_empty in Hv; discriminate].
  destruct Hkey as [-> | ->]; vm_compute in Hv; injection Hv as <-.
  - apply (stress_at_most_one C y).
  - apply (aggression_at_most_one C y).
Qed.

Lemma clamped_indicators_witness :
  analyze_voice_characteristics Examples.with_onsets "clip.wav"
    !! "stress_indicators"%string = Some 1.0
  ∧ PyFloat.gt 1.0 1.0 = false.
Proof.
  split; [vm_compute; reflexivity | ].
  apply (clamped_indicators Examples.with_onsets "clip.wav" "stress_indicators");
    [vm_compute; reflexivity | left; reflexivity].
Defined.

(** C5, as stated, fails: ten onsets in a three-second clip give a
    speaking rate of 140 (words per minute), and frame energies of three
    silent frames and a burst give a volume variation above 1.7. *)
Lemma speaking_rate_unclamped :
  analyze_voice_characteristics Examples.with_onsets "clip.wav"
    !! "speaking_rate"%string = Some 140
  ∧ PyFloat.gt 140 1.0 = true
  ∧ PyFloat.gt
      (voice_get (analyze_voice_characteristics Examples.with_burst "clip.wav")
         "volume_variation") 1.7 = true.
Proof. repeat split; vm_compute; reflexivity. Qed.

(** ** The alert queue *)

Section AlertQueue.
Import Monitor.

Lemma put_unbounded {A} (q : Queue.t A) (x : A) :
  Queue.maxsize q = 0%nat →
  Queue.put q x = Some (Queue.mk 0 (Queue.items q ++ [x])).
Proof. intros H. unfold Queue.put, Queue.full. rewrite H. reflexivity. Qed.

(** With enough rounds the loop of [get_alerts] hands over the whole queue,
    front first, and leaves it empty. *)
Lemma get_alerts_loop_drains (n : nat) :
  ∀ (q : Queue.t Alert) (alerts : list Alert),
    Queue.qsize q ≤ n →
    get_alerts_loop n q alerts
      = (alerts ++ Queue.items q, Queue.mk (Queue.maxsize q) []).
Proof.
  induction n as [|n IH]; intros [m l] alerts Hn; unfold Queue.qsize in *;
    cbn in *.
  - destruct l; [ | cbn in Hn; lia]. by rewrite app_nil_r.
  - destruct l as [|a l]; cbn.
    + by rewrite app_nil_r.
    + rewrite IH by (cbn in *; lia). cbn. by rewrite <- app_assoc.
Qed.

Lemma get_alerts_spec (st : State) :
  get_alerts st
    = (Queue.items (alert_queue st),
       {| is_monitoring := is_monitoring st;
          alert_queue := Queue.mk (Queue.maxsize (alert_queue st)) [] |}).
Proof.
  unfold get_alerts. rewrite get_alerts_loop_drains by lia. reflexivity.
Qed.

Lemma step_unbounded (C : VoiceThreatClassifier) (st : State) (ev : event) :
  unbounded st → unbounded (step C st ev).
Proof.
  unfold unbounded. intros H. destruct ev as [ | | |cb tmp now chunk| ]; cbn;
    try done.
  - rewrite get_alerts_spec. exact H.
  - destruct (is_monitoring st); [ | exact H].
    unfold analyze_chunk.
    destruct (predict C tmp None true) as [[[l e] c]|]; [ | exact H].
    destruct (_ && _); [ | exact H].
    rewrite put_unbounded by exact H.
    destruct (alert_callback cb) as [f|]; [destruct (f _) | ]; reflexivity.
Qed.

Lemma foldl_step_unbounded (C : VoiceThreatClassifier) (evs : list event) :
  ∀ st, unbounded st → unbounded (foldl (step C) st evs).
Proof.
  induction evs as [|ev evs IH]; intros st H; cbn; [exact H | ].
  apply IH, step_unbounded, H.
Qed.

Lemma run_unbounded (C : VoiceThreatClassifier) (evs : list event) :
  unbounded (run C evs).
Proof. apply foldl_step_unbounded. reflexivity. Qed.

End AlertQueue.

Lemma put_all_unbounded (alerts : list Monitor.Alert) :
  ∀ q : Queue.t Monitor.Alert,
    Queue.maxsize q = 0%nat →
    Monitor.put_all q alerts = Queue.mk 0 (Queue.items q ++ alerts).
Proof.
  unfold Monitor.put_all.
  induction alerts as [|a alerts IH]; intros [m l] Hq; cbn in *.
  - by rewrite Hq, app_nil_r.
  - rewrite (put_unbounded (Queue.mk m l)) by exact Hq. cbn.
    rewrite IH by reflexivity. cbn. by rewrite <- app_assoc.
Qed.

(** C9: after any sequence of alerts was enqueued, polling returns all of
    them in the order they were enqueued and leaves the queue empty, so that
    a second poll right after it returns the empty list. *)
Theorem get_alerts_drains (st : Monitor.State) (alerts : list Monitor.Alert) :
  (Monitor.get_alerts
     {| Monitor.is_monitoring := Monitor.is_monitoring st;
        Monitor.alert_queue := Monitor.put_all (Queue.new 0) alerts |}).1
    = alerts
  ∧ (Monitor.get_alerts st).1 = Queue.items (Monitor.alert_queue st)
  ∧ Queue.items (Monitor.alert_queue (Monitor.get_alerts st).2) = []
  ∧ (Monitor.get_alerts (Monitor.get_alerts st).2).1 = [].
Proof.
  rewrite !get_alerts_spec. cbn.
  rewrite put_all_unbounded by reflexivity. repeat split.
Qed.

(** C6, as amended: the alert queue is created by [queue.Queue()] and has no
    capacity: in every reachable state it is not full, and enqueuing an alert
    keeps every queued alert and adds the new one at the back. *)
Theorem alert_queue_unbounded (C : VoiceThreatClassifier)
    (evs : list Monitor.event) (a : Monitor.Alert) :
  Queue.maxsize (Monitor.alert_queue (Monitor.run C evs)) = 0%nat
  ∧ Queue.full (Monitor.alert_queue (Monitor.run C evs)) = false
  ∧ Queue.put (Monitor.alert_queue (Monitor.run C evs)) a
      = Some (Queue.mk 0
                (Queue.items (Monitor.alert_queue (Monitor.run C evs)) ++ [a])).
Proof.
  pose proof (run_unbounded C evs) as H. unfold Monitor.unbounded in H.
  repeat split; [exact H | | apply put_unbounded, H].
  unfold Queue.full. rewrite H. reflexivity.
Qed.

Lemma alarming_state (n : nat) :
  Monitor.is_monitoring (Monitor.run (Examples.with_forest 0.9) (Examples.alarming n)) = true
  ∧ Queue.qsize (Monitor.alert_queue
                   (Monitor.run (Examples.with_forest 0.9) (Examples.alarming n))) = n.
Proof.
  unfold Monitor.run, Examples.alarming. cbn [foldl].
  change (Monitor.step _ Monitor.init Monitor.Start)
    with (Monitor.start_real_time_monitoring Monitor.init).
  induction n as [|n [IHm IHq]]; [split; reflexivity | ].
  rewrite replicate_S_end, foldl_app. cbn [foldl].
  set (st := foldl _ _ _) in *.
  assert (Queue.maxsize (Monitor.alert_queue st) = 0%nat) as Hmax.
  { apply foldl_step_unbounded. reflexivity. }
  unfold Monitor.step. rewrite IHm. unfold Monitor.analyze_chunk.
  replace (predict (Examples.with_forest 0.9) "chunk.wav" None true)
    with (Ok (Threat, "⚠"%string, 0.9)) by (vm_compute; reflexivity).
  replace (bool_decide (Threat ∈ [Threat; Offensive]) && PyFloat.gt 0.9 0.6)
    with true by (vm_compute; reflexivity).
  rewrite put_unbounded by exact Hmax. cbn.
  unfold Queue.qsize in *. cbn. rewrite length_app, IHq. cbn. split; [exact IHm | lia].
Qed.

(** C6, as stated, fails: the queue is made without a capacity, and for
    every [n] there is a history after which it holds [n] alerts. *)
Lemma alert_queue_not_bounded :
  Queue.maxsize (Monitor.alert_queue Monitor.init) = 0%nat
  ∧ Queue.maxsize (Monitor.alert_queue
                     (Monitor.start_real_time_monitoring Monitor.init)) = 0%nat
  ∧ (∀ n : nat, ∃ evs : list Monitor.event,
       Queue.qsize (Monitor.alert_queue
                      (Monitor.run (Examples.with_forest 0.9) evs)) = n)
  ∧ (∀ cap : nat, ¬ ∀ evs : list Monitor.event,
       Queue.qsize (Monitor.alert_queue
                      (Monitor.run (Examples.with_forest 0.9) evs)) ≤ cap).
Proof.
  repeat split.
  - intros n. exists (Examples.alarming n). apply alarming_state.
  - intros cap H. specialize (H (Examples.alarming (S cap))).
    rewrite (proj2 (alarming_state (S cap))) in H. lia.
Qed.

(** ** Alert emission *)

(** C7: with the sensitivity of 0.6, an iteration whose assessment has
    confidence 0.59 leaves the queue as it is and makes no alert call,
    whatever the label; an iteration whose assessment is Threat with
    confidence 0.61 puts the alert at the back of the queue and, when an
    alert callback is given, calls it with that alert first. *)
Theorem alert_threshold (C : VoiceThreatClassifier) (evs : list Monitor.event)
    (cb : Monitor.Callbacks) (tmp : string) (now : float) (audio_chunk : audio)
    (l : Label) (e : string) (c : float) :
  predict C tmp None true = Ok (l, e, c) →
  (c = 0.59 →
   ∃ calls,
     Monitor.analyze_chunk C cb tmp now audio_chunk (Monitor.run C evs)
       = Some (Monitor.run C evs, calls)
     ∧ existsb Monitor.is_alert_call calls = false)
  ∧ (l = Threat → c = 0.61 →
     ∃ calls,
       Monitor.analyze_chunk C cb tmp now audio_chunk (Monitor.run C evs)
         = Some ({| Monitor.is_monitoring :=
                      Monitor.is_monitoring (Monitor.run C evs);
                    Monitor.alert_queue :=
                      Queue.mk 0
                        (Queue.items (Monitor.alert_queue (Monitor.run C evs))
                           ++ [{| Monitor.type := "voice_threat";
                                  Monitor.label := Threat;
                                  Monitor.confidence := 0.61;
                                  Monitor.timestamp := now;
                                  Monitor.audio_file := tmp;
                                  Monitor.emoji := e |}]) |},
                 calls)
       ∧ (is_Some (Monitor.alert_callback cb) →
          head calls
            = Some (Monitor.AlertCall
                      {| Monitor.type := "voice_threat";
                         Monitor.label := Threat;
                         Monitor.confidence := 0.61;
                         Monitor.timestamp := now;
                         Monitor.audio_file := tmp;
                         Monitor.emoji := e |}))).
Proof.
  intros Hp. unfold Monitor.analyze_chunk. rewrite Hp. split.
  - intros ->.
    replace (PyFloat.gt 0.59 0.6) with false by (vm_compute; reflexivity).
    rewrite andb_false_r. eexists. split; [reflexivity | ].
    unfold Monitor.call_audio. by destruct (Monitor.audio_callback cb).
  - intros -> ->.
    replace (bool_decide (Threat ∈ [Threat; Offensive]) && PyFloat.gt 0.61 0.6)
      with true by (vm_compute; reflexivity).
    rewrite put_unbounded by apply run_unbounded.
    destruct (Monitor.alert_callback cb) as [f|].
    + destruct (f _); eexists; (split; [reflexivity | intros _; reflexivity]).
    + eexists. split; [reflexivity | ]. intros [? ?]. discriminate.
Qed.

Lemma alert_threshold_witness :
  (∃ calls,
     Monitor.analyze_chunk (Examples.with_forest 0.59) Examples.both_callbacks
       "chunk.wav" 0 [] (Monitor.run (Examples.with_forest 0.59) [Monitor.Start])
       = Some (Monitor.run (Examples.with_forest 0.59) [Monitor.Start], calls)
     ∧ existsb Monitor.is_alert_call calls = false)
  ∧ (∃ calls st,
       Monitor.analyze_chunk (Examples.with_forest 0.61) Examples.both_callbacks
         "chunk.wav" 0 [] (Monitor.run (Examples.with_forest 0.61) [Monitor.Start])
         = Some (st, calls)
       ∧ Queue.qsize (Monitor.alert_queue st) = 1%nat
       ∧ existsb Monitor.is_alert_call calls = true).
Proof.
  split.
  - apply (proj1 (alert_threshold (Examples.with_forest 0.59) [Monitor.Start]
                    Examples.both_callbacks "chunk.wav" 0 [] Threat "⚠" 0.59
                    ltac:(vm_compute; reflexivity))).
    reflexivity.
  - destruct (proj2 (alert_threshold (Examples.with_forest 0.61) [Monitor.Start]
                       Examples.both_callbacks "chunk.wav" 0 [] Threat "⚠" 0.61
                       ltac:(vm_compute; reflexivity)) eq_refl eq_refl)
      as (calls & Hrun & Hcall).
    eexists calls, _. split; [exact Hrun | ]. split; [reflexivity | ].
    specialize (Hcall ltac:(eexists; reflexivity)).
    destruct calls as [|c0 calls]; [discriminate | ].
    injection Hcall as ->. reflexivity.
Defined.

(** An Offensive assessment above the sensitivity alerts as well, and a
    Safe one never does. *)
Lemma alert_iff_label_and_confidence (C : VoiceThreatClassifier)
    (cb : Monitor.Callbacks) (tmp : string) (now : float) (audio_chunk : audio)
    (st : Monitor.State) (l : Label) (e : string) (c : float) :
  predict C tmp None true = Ok (l, e, c) →
  bool_decide (l ∈ [Threat; Offensive]) && PyFloat.gt c 0.6 = false →
  Monitor.analyze_chunk C cb tmp now audio_chunk st
    = Some (st, Monitor.call_audio cb audio_chunk l c).
Proof.
  intros Hp Hc. unfold Monitor.analyze_chunk. rewrite Hp, Hc. reflexivity.
Qed.

(** ** The feature vector *)

Section FeatureVector.
Context (C : VoiceThreatClassifier).

Lemma bind_Ok {A B} (k : A → result B) (r : result A) (b : B) :
  r ≫= k = Ok b → ∃ a, r = Ok a ∧ k a = Ok b.
Proof. destruct r as [a|]; [eauto | discriminate]. Qed.

Lemma try_default_raise {A B} (k : A → result B) (d : B) :
  try_default (Raise ≫= k) d = d.
Proof. reflexivity. Qed.

Lemma length_get_scalars (features : gmap string fval) (keys : list string) :
  ∀ xs, get_scalars features keys = Ok xs → length xs = length keys.
Proof.
  induction keys as [|key keys IH]; cbn; intros xs H.
  - by injection H as <-.
  - destruct (get_scalar features key); cbn in H; [ | discriminate].
    destruct (get_scalars features keys) as [ys|]; cbn in H; [ | discriminate].
    injection H as <-. cbn. f_equal. by apply IH.
Qed.

(** Padding then cropping gives 13 values whatever the length was. *)
Lemma length_pad_crop (a : list float) : length (pad_crop a) = 13%nat.
Proof.
  unfold pad_crop, zeros. rewrite length_take, length_app, length_replicate. lia.
Qed.

Lemma length_get_array (features : gmap string fval) (key : string)
    (a : list float) :
  get_array features key = Ok a → length a = 13%nat.
Proof.
  unfold get_array. destruct (default _ _); intros H; [discriminate | ].
  injection H as <-. apply length_pad_crop.
Qed.

(** The vector is made of six blocks of 14, 13, 13, 2, 13 and 5 values. *)
Lemma create_feature_vector_blocks (features : gmap string fval)
    (voice_analysis : gmap string float) (v : list float) :
  create_feature_vector C features voice_analysis = Ok v →
  ∃ basic mfcc_mean mfcc_std pitch emotional_features voice,
    v = np_float32 (numpy C) <$>
          (basic ++ mfcc_mean ++ mfcc_std ++ pitch ++ emotional_features ++ voice)
    ∧ length basic = 14%nat ∧ length mfcc_mean = 13%nat
    ∧ length mfcc_std = 13%nat ∧ length pitch = 2%nat
    ∧ length emotional_features = 13%nat ∧ length voice = 5%nat.
Proof.
  unfold create_feature_vector. intros H.
  apply bind_Ok in H as (basic & Hb & H).
  apply bind_Ok in H as (mm & Hmm & H).
  apply bind_Ok in H as (ms & Hms & H).
  apply bind_Ok in H as (pitch & Hpi & H).
  apply bind_Ok in H as (emo & He & H).
  injection H as <-.
  exists basic, mm, ms, pitch, emo, (voice_get voice_analysis <$> voice_keys).
  split; [reflexivity | ].
  apply length_get_scalars in Hb, Hpi. apply length_get_array in Hmm, Hms, He.
  repeat split; assumption || reflexivity.
Qed.

Lemma create_feature_vector_length (features : gmap string fval)
    (voice_analysis : gmap string float) (v : list float) :
  create_feature_vector C features voice_analysis = Ok v → length v = 60%nat.
Proof.
  intros H. apply create_feature_vector_blocks in H
    as (b & mm & ms & p & e & vo & -> & Hb & Hmm & Hms & Hp & He & Hvo).
  rewrite length_fmap, !length_app. lia.
Qed.

(** The dictionary built from loaded samples has a number under every
    scalar key and an array under every array key: the vector is built. *)
Lemma create_feature_vector_features_of (y : audio) (zcr : float)
    (voice_analysis : gmap string float) :
  raises (create_feature_vector C (features_of C y zcr) voice_analysis) = false.
Proof. unfold features_of. split_groups. vm_compute. reflexivity. Qed.

Lemma create_feature_vector_default (voice_analysis : gmap string float) :
  raises (create_feature_vector C get_default_features voice_analysis) = false.
Proof. vm_compute. reflexivity. Qed.

Lemma create_feature_vector_extracted (audio_path : string)
    (voice_analysis : gmap string float) :
  raises (create_feature_vector C (extract_audio_features C audio_path)
            voice_analysis) = false.
Proof.
  unfold extract_audio_features.
  destruct (load (librosa C) audio_path) as [y|]; cbn;
    [ | apply create_feature_vector_default].
  destruct (zero_crossing_rate (librosa C) (truncate y)) as [zcr|]; cbn;
    [apply create_feature_vector_features_of | apply create_feature_vector_default].
Qed.

Lemma extracted_nonempty (audio_path : string) :
  dict_nonempty (extract_audio_features C audio_path) = true.
Proof.
  unfold extract_audio_features.
  destruct (load (librosa C) audio_path) as [y|]; cbn; [ | reflexivity].
  destruct (zero_crossing_rate (librosa C) (truncate y)) as [zcr|]; cbn;
    [ | reflexivity].
  unfold features_of. split_groups. vm_compute. reflexivity.
Qed.

End FeatureVector.

(** C3: whatever the clip and whichever estimators fail, the pipeline builds
    a feature vector of exactly 60 values (14 scalars, 13 MFCC means, 13 MFCC
    deviations, 2 pitch statistics, 13 emotional features, 5 voice
    characteristics); a clip that cannot be read gives the default
    dictionary, a failed group its defaults, arrays of any length are padded
    or cropped to 13, and a missing characteristic counts as 0. *)
Theorem feature_vector_length (C : VoiceThreatClassifier) (audio_path : string) :
  (∃ v basic mfcc_mean mfcc_std pitch emotional_features voice,
     create_feature_vector C (extract_audio_features C audio_path)
       (analyze_voice_characteristics C audio_path) = Ok v
     ∧ length v = 60%nat
     ∧ v = np_float32 (numpy C) <$>
             (basic ++ mfcc_mean ++ mfcc_std ++ pitch ++ emotional_features
                ++ voice)
     ∧ length basic = 14%nat ∧ length mfcc_mean = 13%nat
     ∧ length mfcc_std = 13%nat ∧ length pitch = 2%nat
     ∧ length emotional_features = 13%nat ∧ length voice = 5%nat)
  ∧ (∀ features voice_analysis v,
       create_feature_vector C features voice_analysis = Ok v →
       length v = 60%nat)
  ∧ (load (librosa C) audio_path = Raise →
     extract_audio_features C audio_path = get_default_features
     ∧ analyze_voice_characteristics C audio_path = ∅)
  ∧ (∀ y zcr,
       mfcc (librosa C) y = Raise →
       features_of C y zcr !! "mfcc_mean"%string = Some (FArr (zeros 13))
       ∧ features_of C y zcr !! "mfcc_std"%string = Some (FArr (zeros 13)))
  ∧ (∀ y zcr,
       emotional (librosa C) y = Raise →
       features_of C y zcr !! "emotional_features"%string
         = Some (FArr (zeros 13)))
  ∧ (∀ a, length (pad_crop a) = 13%nat)
  ∧ (∀ key, voice_get ∅ key = 0).
Proof.
  repeat apply conj.
  - pose proof (create_feature_vector_extracted C audio_path
                  (analyze_voice_characteristics C audio_path)) as Hok.
    destruct (create_feature_vector C _ _) as [v|] eqn:Hv; [ | discriminate].
    pose proof (create_feature_vector_length C _ _ _ Hv) as Hlen.
    apply create_feature_vector_blocks in Hv
      as (b & mm & ms & p & e & vo & Heq & Hrest).
    exists v, b, mm, ms, p, e, vo. repeat split; tauto || assumption.
  - apply create_feature_vector_length.
  - intros Hload. unfold extract_audio_features, analyze_voice_characteristics.
    rewrite Hload. split; reflexivity.
  - intros y zcr Hm. unfold features_of. rewrite Hm, try_default_raise.
    split_groups.
    split; vm_compute; reflexivity.
  - intros y zcr He. unfold features_of, extract_emotional_features.
    rewrite He, try_default_raise.
    split_groups.
    vm_compute. reflexivity.
  - apply length_pad_crop.
  - intros key. unfold voice_get. by rewrite lookup_empty.
Qed.

(** A chunk of no samples gives a full-length vector. *)
Example empty_chunk_vector :
  length <$> create_feature_vector Examples.with_empty_clip
               (extract_audio_features Examples.with_empty_clip "empty.wav")
               (analyze_voice_characteristics Examples.with_empty_clip "empty.wav")
  = Ok 60%nat.
Proof. vm_compute. reflexivity. Qed.

(** ** Failure recovery in [predict] *)

Section Recovery.
Context (C : VoiceThreatClassifier).

Lemma predict_full_returns (audio_path : string) (transcription : option text) :
  raises (predict_full C audio_path transcription) = false.
Proof.
  unfold predict_full. destruct (text_gate C _) as [[] e]; reflexivity.
Qed.

(** The forest's own failures fall back to the rules; only asking an
    unfitted forest for its truth value escapes. *)
Lemma audio_prediction_raises (audio_path : string)
    (voice_analysis : gmap string float) :
  raises (audio_prediction C (extract_audio_features C audio_path) voice_analysis)
    = raises (rf_truth C).
Proof.
  unfold audio_prediction.
  pose proof (create_feature_vector_extracted C audio_path voice_analysis) as H.
  destruct (create_feature_vector C _ _) as [v|]; [ | discriminate]. cbn.
  destruct (rf_truth C) as [[rf|]|]; cbn; try reflexivity.
  destruct (forest_prediction C rf v); reflexivity.
Qed.

Lemma predict_fast_raises (audio_path : string) :
  raises (predict_fast C audio_path) = raises (rf_truth C).
Proof.
  unfold predict_fast. rewrite extracted_nonempty.
  rewrite <- (audio_prediction_raises audio_path
                (analyze_voice_characteristics C audio_path)).
  destruct (audio_prediction C _ _) as [[p s]|]; cbn; [ | reflexivity].
  destruct (map_prediction_to_label p). reflexivity.
Qed.

Lemma predict_returns (audio_path : string) (transcription : option text)
    (fast_mode : bool) :
  ∃ l e c, predict C audio_path transcription fast_mode = Ok (l, e, c).
Proof.
  unfold predict.
  destruct (predict_body C audio_path transcription fast_mode) as [[[l e] c]|];
    cbn; eauto.
Qed.

Lemma emotion_signal_raising (audio_path : string)
    (classifier : audio → result (list (string * float))) :
  emotion_classifier C = Some classifier →
  (∀ a, classifier a = Raise) →
  emotion_signal C audio_path = 0.
Proof.
  intros Hc Hr. unfold emotion_signal, analyze_emotion. rewrite Hc.
  destruct (is_speech C audio_path); cbn; [ | vm_compute; reflexivity].
  destruct (load (librosa C) audio_path) as [a|]; cbn; [ | reflexivity].
  rewrite Hr. reflexivity.
Qed.

Lemma analyze_text_with_raising
    (classifier : text → result (list (string * float))) (t : text) :
  classifier t = Raise → analyze_text_with C (Some classifier) t = [].
Proof.
  intros Hr. unfold analyze_text_with. destruct (truthy _); [ | reflexivity].
  rewrite Hr. reflexivity.
Qed.

End Recovery.

(** C4: [predict] returns a label and a confidence on every input and never
    raises.  In full mode nothing reaches the outermost handler; in fast mode
    only an unfitted forest does, and the answer is then the Safe default.
    An emotion, toxicity, sentiment or speech model that is absent or raises,
    and an audio analysis that fails, contribute 0 to the fused score. *)
Theorem predict_never_raises (C : VoiceThreatClassifier) (audio_path : string)
    (transcription : option text) (fast_mode : bool) :
  (∃ l e c, predict C audio_path transcription fast_mode = Ok (l, e, c))
  ∧ raises (predict_body C audio_path transcription false) = false
  ∧ raises (predict_body C audio_path transcription true)
      = os_path_exists C audio_path && raises (rf_truth C)
  ∧ (raises (predict_body C audio_path transcription fast_mode) = true →
     predict C audio_path transcription fast_mode = Ok safe_default)
  ∧ (os_path_exists C audio_path = false →
     predict C audio_path transcription fast_mode = Ok safe_default)
  ∧ (∀ e,
       os_path_exists C audio_path = true →
       text_gate C (effective_transcription C audio_path transcription)
         = (Safe, e) →
       predict C audio_path transcription false
         = Ok (fused C audio_path
                 (effective_transcription C audio_path transcription)))
  ∧ (raises (rf_truth C) = true → audio_signal C audio_path = 0)
  ∧ (emotion_classifier C = None → emotion_signal C audio_path = 0)
  ∧ (∀ classifier,
       emotion_classifier C = Some classifier →
       (∀ a, classifier a = Raise) →
       emotion_signal C audio_path = 0)
  ∧ (∀ t s, toxicity_classifier C = None → toxicity_signal C t s = (0, s))
  ∧ (∀ classifier t s,
       toxicity_classifier C = Some classifier → classifier t = Raise →
       toxicity_signal C t s = (0, s))
  ∧ (∀ t s, sentiment_analyzer C = None → sentiment_signal C t s = (0, s))
  ∧ (∀ classifier t s,
       sentiment_analyzer C = Some classifier → classifier t = Raise →
       sentiment_signal C t s = (0, s))
  ∧ (∀ recognizer,
       speech_recognizer C = Some recognizer →
       (∀ a, recognizer a = Raise) →
       transcribe_audio C audio_path = [])
  ∧ (∀ tr, text_truthy tr = false → text_signals C tr = (0, 0, 0))
  ∧ final_score 0 0 0 0 0 = 0.
Proof.
  repeat apply conj.
  - apply predict_returns.
  - unfold predict_body. destruct (os_path_exists C audio_path); cbn;
      [apply predict_full_returns | reflexivity].
  - unfold predict_body. destruct (os_path_exists C audio_path); cbn;
      [apply predict_fast_raises | reflexivity].
  - intros H. unfold predict.
    destruct (predict_body C audio_path transcription fast_mode);
      [discriminate | reflexivity].
  - intros H. unfold predict, predict_body. rewrite H. reflexivity.
  - intros e Hex Hgate. unfold predict, predict_body, predict_full.
    rewrite Hex, Hgate. reflexivity.
  - intros H. unfold audio_signal. rewrite extracted_nonempty.
    pose proof (audio_prediction_raises C audio_path
                  (analyze_voice_characteristics C audio_path)) as Hr.
    rewrite H in Hr. destruct (audio_prediction C _ _); [discriminate | reflexivity].
  - intros H. unfold emotion_signal. rewrite H. reflexivity.
  - intros classifier. apply emotion_signal_raising.
  - intros t s H. unfold toxicity_signal. rewrite H. reflexivity.
  - intros classifier t s Hc Hr. unfold toxicity_signal, analyze_text_toxicity.
    rewrite Hc, (analyze_text_with_raising C _ _ Hr). reflexivity.
  - intros t s H. unfold sentiment_signal. rewrite H. reflexivity.
  - intros classifier t s Hc Hr. unfold sentiment_signal, analyze_sentiment.
    rewrite Hc, (analyze_text_with_raising C _ _ Hr). reflexivity.
  - intros recognizer Hc Hr. unfold transcribe_audio. rewrite Hc.
    destruct (load (librosa C) audio_path) as [a|]; cbn; [ | reflexivity].
    rewrite Hr. reflexivity.
  - intros [[|c t]|] H; try discriminate; reflexivity.
  - vm_compute. reflexivity.
Qed.

(** With no model at all and an unreadable clip, full mode still answers. *)
Example predict_without_models :
  predict Examples.online "clip.wav" None false = Ok (Safe, "✅"%string, 0).
Proof. vm_compute. reflexivity. Qed.

(** An unfitted forest in fast mode: the outermost handler answers. *)
Example predict_unfitted_forest :
  predict
    (Examples.classifier (λ _, true) Examples.no_librosa
       (Some {| estimators_ := None; rf_predict _ := Raise;
                rf_predict_proba_max _ := Raise |}))
    "clip.wav" None true
  = Ok (Safe, "✅"%string, 0.5).
Proof. vm_compute. reflexivity. Qed.

(** ** The override gate *)

(** On an existing clip, full mode answers with the transcript classifier's
    Threat or Offensive label and the fixed confidence. *)
Lemma predict_gate (C : VoiceThreatClassifier) (audio_path : string)
    (transcription : option text) (t : text) (l : Label) (e : string) :
  os_path_exists C audio_path = true →
  effective_transcription C audio_path transcription = Some t →
  truthy t = true →
  TextModel.predict (unicode C) (text_threat_classifier C) t = Ok (l, e) →
  predict C audio_path transcription false
    = match l with
      | Threat => Ok (Threat, e, 1.0)
      | Offensive => Ok (Offensive, e, 0.8)
      | Safe => Ok (fused C audio_path (Some t))
      end.
Proof.
  intros Hex Ht Hne Hp. unfold predict, predict_body, predict_full.
  rewrite Hex, Ht. cbn [negb].
  destruct t as [|c t]; [discriminate | ].
  unfold text_gate. rewrite Hp. cbn [try_default].
  destruct l; reflexivity.
Qed.

(** C1, as amended: in full mode on an audio path that exists, when the
    transcript classifier labels the non-empty transcription Threat the
    result is Threat with confidence 1.0, and when it labels it Offensive
    the result is Offensive with confidence 0.8, whatever the audio,
    emotion, toxicity and sentiment analyses give. *)
Theorem override_gate (C : VoiceThreatClassifier) (audio_path : string)
    (transcription : option text) (t : text) (e : string) :
  os_path_exists C audio_path = true →
  effective_transcription C audio_path transcription = Some t →
  truthy t = true →
  (TextModel.predict (unicode C) (text_threat_classifier C) t = Ok (Threat, e) →
   predict C audio_path transcription false = Ok (Threat, e, 1.0))
  ∧ (TextModel.predict (unicode C) (text_threat_classifier C) t
       = Ok (Offensive, e) →
     predict C audio_path transcription false = Ok (Offensive, e, 0.8)).
Proof.
  intros Hex Ht Hne.
  split; intros Hp; apply (predict_gate C audio_path transcription t _ e Hex Ht Hne Hp).
Qed.

Lemma override_gate_witness :
  predict Examples.online "clip.wav" (Some Examples.threat_text) false
    = Ok (Threat, "⚠"%string, 1.0).
Proof.
  apply (proj1 (override_gate Examples.online "clip.wav"
                  (Some Examples.threat_text) Examples.threat_text "⚠"
                  ltac:(reflexivity) ltac:(reflexivity) ltac:(reflexivity)));
    vm_compute; reflexivity.
Defined.

(** C1, as stated, fails: when the audio path does not exist the result is
    Safe with confidence 0.5, although the transcript classifier labels the
    transcription Threat. *)
Lemma override_gate_missing_file :
  TextModel.predict (unicode Examples.offline)
    (text_threat_classifier Examples.offline) Examples.threat_text
    = Ok (Threat, "⚠"%string)
  ∧ os_path_exists Examples.offline "missing.wav" = false
  ∧ predict Examples.offline "missing.wav" (Some Examples.threat_text) false
      = Ok (Safe, "✅"%string, 0.5).
Proof. repeat split; vm_compute; reflexivity. Qed.

(** ** Money keywords *)

(** Every money pattern needs at least one character. *)
Lemma money_match_nonempty (U : UnicodeDB) (t : text) :
  TextModel.any_match U TextModel.money_keywords t = true → truthy t = true.
Proof. destruct t; [vm_compute; discriminate | reflexivity]. Qed.

(** C10, as amended: a transcript that matches a money keyword pattern is
    labelled Offensive by the transcript classifier before any threat
    keyword or the model is looked at; in full mode on an audio path that
    exists, such a transcript gives Offensive with confidence 0.8, threat
    words or not. *)
Theorem money_keywords_first (C : VoiceThreatClassifier) (audio_path : string)
    (transcription : option text) (t : text) :
  TextModel.any_match (unicode C) TextModel.money_keywords t = true →
  TextModel.predict (unicode C) (text_threat_classifier C) t
    = Ok (Offensive, "❗"%string)
  ∧ (os_path_exists C audio_path = true →
     effective_transcription C audio_path transcription = Some t →
     predict C audio_path transcription false = Ok (Offensive, "❗"%string, 0.8)).
Proof.
  intros Hm.
  assert (TextModel.predict (unicode C) (text_threat_classifier C) t
            = Ok (Offensive, "❗"%string)) as Hp.
  { unfold TextModel.predict. rewrite Hm. reflexivity. }
  split; [exact Hp | ]. intros Hex Ht.
  apply (predict_gate C audio_path transcription t _ _ Hex Ht
           (money_match_nonempty _ _ Hm) Hp).
Qed.

Lemma money_keywords_first_witness :
  TextModel.any_match (unicode Examples.online) TextModel.threat_keywords
    Examples.money_threat_text = true
  ∧ TextModel.predict (unicode Examples.online)
      (text_threat_classifier Examples.online) Examples.money_threat_text
    = Ok (Offensive, "❗"%string)
  ∧ predict Examples.online "clip.wav" (Some Examples.money_threat_text) false
    = Ok (Offensive, "❗"%string, 0.8).
Proof.
  split; [vm_compute; reflexivity | ].
  destruct (money_keywords_first Examples.online "clip.wav"
              (Some Examples.money_threat_text) Examples.money_threat_text
              ltac:(vm_compute; reflexivity)) as [H1 H2].
  split; [exact H1 | apply H2; reflexivity].
Defined.

(** C10, as stated, fails: when the audio path does not exist, a transcript
    with a money keyword gives Safe with confidence 0.5. *)
Lemma money_keywords_missing_file :
  TextModel.any_match (unicode Examples.offline) TextModel.money_keywords
    Examples.money_threat_text = true
  ∧ os_path_exists Examples.offline "missing.wav" = false
  ∧ predict Examples.offline "missing.wav" (Some Examples.money_threat_text)
      false
    = Ok (Safe, "✅"%string, 0.5).
Proof. repeat split; vm_compute; reflexivity. Qed.

(** Scenario C: the transcript "I will kill you" on an existing clip. *)
Example scenario_C :
  TextModel.predict Examples.ascii_tables
    (text_threat_classifier Examples.online) Examples.threat_text
    = Ok (Threat, "⚠"%string)
  ∧ predict Examples.online "clip.wav" (Some Examples.threat_text) false
    = Ok (Threat, "⚠"%string, 1.0).
Proof. split; vm_compute; reflexivity. Qed.

(** The patterns behave as in [re]: word boundaries, digits after a currency
    sign, case-insensitive literals. *)
Example regex_samples :
  Re.search Examples.ascii_tables true (Re.compile "\bkill\b") (str "I will KILL you") = true
  ∧ Re.search Examples.ascii_tables true (Re.compile "\bkill\b") (str "a skillful player") = false
  ∧ Re.search Examples.ascii_tables true (Re.compile "\$\d+") (str "send $500 now") = true
  ∧ Re.search Examples.ascii_tables true (Re.compile "\$\d+") (str "send $ now") = false
  ∧ Re.search Examples.ascii_tables true (Re.compile "rs\.?\s*\d+") (str "pay Rs. 2000") = true
  ∧ Re.search Examples.ascii_tables true (Re.compile "bank") (str "the riverbanks") = true
  ∧ Re.search Examples.ascii_tables false (Re.compile "\bheart\s*attack\b")
      (str "a heart  attack") = true.
Proof. repeat split; vm_compute; reflexivity. Qed.

(** * Further properties *)

(** ** The fallback rules, case by case *)

(** X1: the fallback answers Threat exactly when the aggression test and at
    least two of the other three tests fire, Offensive when stress with
    aggression or volume, or aggression with volume or pitch fire without
    reaching Threat, and Safe otherwise. *)
Theorem rule_based_prediction_table (features : gmap string fval)
    (va : gmap string float) :
  (rule_based_prediction features va).1
    = (if PyFloat.gt (voice_get va "aggression_indicators") 0.7
          && ((PyFloat.gt (voice_get va "stress_indicators") 0.7
               && PyFloat.gt (voice_get va "volume_variation") 0.5)
              || (PyFloat.gt (voice_get va "stress_indicators") 0.7
                  && PyFloat.gt (voice_get va "pitch_variation") 0.5)
              || (PyFloat.gt (voice_get va "volume_variation") 0.5
                  && PyFloat.gt (voice_get va "pitch_variation") 0.5))
       then 2
       else if (PyFloat.gt (voice_get va "stress_indicators") 0.7
                && PyFloat.gt (voice_get va "aggression_indicators") 0.7)
               || (PyFloat.gt (voice_get va "stress_indicators") 0.7
                   && PyFloat.gt (voice_get va "volume_variation") 0.5)
               || (PyFloat.gt (voice_get va "aggression_indicators") 0.7
                   && PyFloat.gt (voice_get va "volume_variation") 0.5)
               || (PyFloat.gt (voice_get va "aggression_indicators") 0.7
                   && PyFloat.gt (voice_get va "pitch_variation") 0.5)
       then 1
       else 0)%Z.
Proof.
  unfold rule_based_prediction. rewrite rule_based_score_cases.
  destruct (PyFloat.gt (voice_get va "stress_indicators") 0.7);
  destruct (PyFloat.gt (voice_get va "aggression_indicators") 0.7);
  destruct (PyFloat.gt (voice_get va "volume_variation") 0.5);
  destruct (PyFloat.gt (voice_get va "pitch_variation") 0.5);
  vm_compute; reflexivity.
Qed.

(** X2: the fallback score is at least 0 and stays strictly below 1. *)
Theorem rule_based_score_range (va : gmap string float) :
  PyFloat.le 0 (rule_based_score va) = true
  ∧ PyFloat.lt (rule_based_score va) 1.0 = true.
Proof.
  rewrite rule_based_score_cases.
  destruct (PyFloat.gt (voice_get va "stress_indicators") 0.7);
  destruct (PyFloat.gt (voice_get va "aggression_indicators") 0.7);
  destruct (PyFloat.gt (voice_get va "volume_variation") 0.5);
  destruct (PyFloat.gt (voice_get va "pitch_variation") 0.5);
  split; vm_compute; reflexivity.
Qed.

(** Rounding decides the two sums that are 0.7 on paper: stress with
    aggression stays at the threshold, aggression with both variations
    passes it. *)
Example fallback_rounding :
  0.0 + 0.3 + 0.4 = 0.7
  ∧ PyFloat.gt (0.0 + 0.3 + 0.4) 0.7 = false
  ∧ PyFloat.gt (0.0 + 0.4 + 0.2 + 0.1) 0.7 = true.
Proof. repeat split; vm_compute; reflexivity. Qed.

(** ** The keyword score of a transcript *)

Section KeywordScore.
Context (C : VoiceThreatClassifier).

Lemma count_matches_le (patterns : list Re.regex) (t : text) :
  count_matches C patterns t ≤ length patterns.
Proof. apply filter_length_le. Qed.

(** One occurrence adds the weight, two or more add the cap: 0.3 and 0.6
    for the threat terms. *)
Lemma threat_category (score : float) (n : nat) :
  n ≤ 40 →
  category_score score n 0.3 0.6
    = match n with O => score | S O => score + 0.3 | _ => score + 0.6 end.
Proof.
  intros Hn. unfold category_score.
  do 41 (destruct n as [|n]; [vm_compute; reflexivity | ]). lia.
Qed.

Lemma distress_category (score : float) (n : nat) :
  n ≤ 39 →
  category_score score n 0.2 0.4
    = match n with O => score | S O => score + 0.2 | _ => score + 0.4 end.
Proof.
  intros Hn. unfold category_score.
  do 40 (destruct n as [|n]; [vm_compute; reflexivity | ]). lia.
Qed.

Lemma scam_category (score : float) (n : nat) :
  n ≤ 62 →
  category_score score n 0.25 0.5
    = match n with O => score | S O => score + 0.25 | _ => score + 0.5 end.
Proof.
  intros Hn. unfold category_score.
  do 63 (destruct n as [|n]; [vm_compute; reflexivity | ]). lia.
Qed.

Lemma analyze_transcription_tiers (t : text) :
  truthy t = true →
  analyze_transcription C t
    = PyFloat.min
        (match count_matches C scam_indicators (uni_lower (unicode C) t) with
         | O => λ s, s | S O => λ s, s + 0.25 | _ => λ s, s + 0.5
         end
           (match count_matches C distress_indicators
                    (uni_lower (unicode C) t) with
            | O => λ s, s | S O => λ s, s + 0.2 | _ => λ s, s + 0.4
            end
              (match count_matches C threat_keywords
                       (uni_lower (unicode C) t) with
               | O => 0.0 | S O => 0.0 + 0.3 | _ => 0.0 + 0.6
               end)))
        1.0.
Proof.
  intros Ht. unfold analyze_transcription. rewrite Ht. cbn [negb].
  rewrite threat_category by apply (count_matches_le threat_keywords).
  rewrite distress_category by apply (count_matches_le distress_indicators).
  rewrite scam_category by apply (count_matches_le scam_indicators).
  destruct (count_matches C threat_keywords _) as [|[|?]];
  destruct (count_matches C distress_indicators _) as [|[|?]];
  destruct (count_matches C scam_indicators _) as [|[|?]]; reflexivity.
Qed.

End KeywordScore.

(** X3: the keyword score of a transcript lies between 0 and 1, and is 0
    for the empty transcript. *)
Theorem analyze_transcription_range (C : VoiceThreatClassifier) (t : text) :
  PyFloat.le 0 (analyze_transcription C t) = true
  ∧ PyFloat.le (analyze_transcription C t) 1.0 = true
  ∧ analyze_transcription C [] = 0.
Proof.
  split; [ | split; [ | reflexivity]].
  - destruct t as [|c t]; [vm_compute; reflexivity | ].
    rewrite analyze_transcription_tiers by reflexivity.
    destruct (count_matches C threat_keywords _) as [|[|?]];
    destruct (count_matches C distress_indicators _) as [|[|?]];
    destruct (count_matches C scam_indicators _) as [|[|?]];
    vm_compute; reflexivity.
  - destruct t as [|c t]; [vm_compute; reflexivity | ].
    rewrite analyze_transcription_tiers by reflexivity.
    destruct (count_matches C threat_keywords _) as [|[|?]];
    destruct (count_matches C distress_indicators _) as [|[|?]];
    destruct (count_matches C scam_indicators _) as [|[|?]];
    vm_compute; reflexivity.
Qed.

(** X4: each keyword category saturates at two patterns: a transcript in
    which [n] threat, distress or scam patterns occur scores as one in which
    [min n 2] of them do. *)
Theorem analyze_transcription_saturates (C : VoiceThreatClassifier)
    (t t' : text) :
  truthy t = true → truthy t' = true →
  count_matches C threat_keywords (uni_lower (unicode C) t) `min` 2
    = count_matches C threat_keywords (uni_lower (unicode C) t') `min` 2 →
  count_matches C distress_indicators (uni_lower (unicode C) t) `min` 2
    = count_matches C distress_indicators (uni_lower (unicode C) t') `min` 2 →
  count_matches C scam_indicators (uni_lower (unicode C) t) `min` 2
    = count_matches C scam_indicators (uni_lower (unicode C) t') `min` 2 →
  analyze_transcription C t = analyze_transcription C t'.
Proof.
  intros Ht Ht' H1 H2 H3. rewrite !analyze_transcription_tiers by assumption.
  destruct (count_matches C threat_keywords (uni_lower (unicode C) t)) as [|[|?]];
  destruct (count_matches C threat_keywords (uni_lower (unicode C) t')) as [|[|?]];
    try (cbn in H1; lia);
  destruct (count_matches C distress_indicators (uni_lower (unicode C) t)) as [|[|?]];
  destruct (count_matches C distress_indicators (uni_lower (unicode C) t')) as [|[|?]];
    try (cbn in H2; lia);
  destruct (count_matches C scam_indicators (uni_lower (unicode C) t)) as [|[|?]];
  destruct (count_matches C scam_indicators (uni_lower (unicode C) t')) as [|[|?]];
    try (cbn in H3; lia); reflexivity.
Qed.

Lemma analyze_transcription_saturates_witness :
  analyze_transcription Examples.online
    (str "they will kill and shoot and bomb")
  = analyze_transcription Examples.online (str "kill or shoot").
Proof.
  apply (analyze_transcription_saturates Examples.online);
    vm_compute; reflexivity.
Defined.

(** ** What the feature vector keeps *)

(** X5: padding keeps the given values in front and fills up with zeros,
    cropping keeps the first 13 values; an array of 13 values is left as it
    is. *)
Theorem pad_crop_values (a : list float) :
  pad_crop a = take 13 a ++ zeros (13 - length a)
  ∧ (length a = 13%nat → pad_crop a = a)
  ∧ (length a ≤ 13 → take (length a) (pad_crop a) = a)
  ∧ (13 ≤ length a → pad_crop a = take 13 a).
Proof.
  assert (pad_crop a = take 13 a ++ zeros (13 - length a)) as H.
  { unfold pad_crop, zeros. rewrite take_app, take_replicate.
    f_equal. f_equal. lia. }
  split; [exact H | ]. rewrite H. repeat split.
  - intros Hl. rewrite Hl. cbn. rewrite app_nil_r.
    rewrite <- Hl. apply firstn_all.
  - intros Hl. rewrite (take_ge a 13) by exact Hl. apply take_app_length.
  - intros Hl. replace (13 - length a)%nat with 0%nat by lia.
    cbn. apply app_nil_r.
Qed.

(** X6: feature extraction reads at most the first 30 seconds: a longer
    clip is cut to its first 480000 samples and a shorter one is left as it
    is. *)
Theorem truncate_prefix (y : audio) :
  truncate y = take (N.to_nat 480000) y
  ∧ length (truncate y) ≤ N.to_nat 480000
  ∧ (length y ≤ N.to_nat 480000 → truncate y = y)
  ∧ truncate y `prefix_of` y.
Proof.
  assert (truncate y = take (N.to_nat 480000) y) as H.
  { unfold truncate. change (sample_rate * max_length)%N with 480000%N.
    destruct (N.ltb_spec 480000 (N.of_nat (length y))); [reflexivity | ].
    symmetry. apply take_ge. lia. }
  split; [exact H | ]. rewrite H. repeat split.
  - rewrite length_take. lia.
  - intros Hl. apply take_ge. exact Hl.
  - apply prefix_take.
Qed.

Lemma get_scalar_insert_ne (features : gmap string fval) (k key : string)
    (x : fval) :
  k ≠ key → get_scalar (<[k := x]> features) key = get_scalar features key.
Proof. intros H. unfold get_scalar. by rewrite lookup_insert_ne. Qed.

Lemma get_scalars_insert_ne (features : gmap string fval) (k : string)
    (x : fval) (keys : list string) :
  k ∉ keys → get_scalars (<[k := x]> features) keys = get_scalars features keys.
Proof.
  induction keys as [|key keys IH]; intros H; [reflexivity | ].
  apply not_elem_of_cons in H as [Hk Hks]. cbn.
  by rewrite get_scalar_insert_ne, IH.
Qed.

Lemma get_array_insert_ne (features : gmap string fval) (k key : string)
    (x : fval) :
  k ≠ key → get_array (<[k := x]> features) key = get_array features key.
Proof. intros H. unfold get_array. by rewrite lookup_insert_ne. Qed.

(** X7: the classifier input depends on the feature dictionary only
    through the nineteen keys it reads: an entry under any other key, the
    tempo among them, leaves the vector as it is. *)
Theorem feature_vector_ignores (C : VoiceThreatClassifier)
    (features : gmap string fval) (voice_analysis : gmap string float)
    (k : string) (x : fval) :
  k ∉ basic_keys ++ pitch_keys
      ++ ["mfcc_mean"; "mfcc_std"; "emotional_features"]%string →
  create_feature_vector C (<[k := x]> features) voice_analysis
    = create_feature_vector C features voice_analysis.
Proof.
  intros H. rewrite !elem_of_app in H.
  unfold create_feature_vector.
  rewrite !get_scalars_insert_ne by tauto.
  rewrite !get_array_insert_ne; [reflexivity | | | ];
    intros ->; apply H; right; right; set_solver.
Qed.

Lemma feature_vector_ignores_witness :
  create_feature_vector Examples.online
    (<["tempo" := FNum 180]> get_default_features) ∅
  = create_feature_vector Examples.online get_default_features ∅.
Proof.
  apply (feature_vector_ignores Examples.online get_default_features ∅
           "tempo" (FNum 180)).
  apply (bool_decide_unpack _). vm_compute. exact I.
Defined.

(** ** Fast mode *)

Lemma predict_fast_cases (C : VoiceThreatClassifier) (audio_path : string) :
  ∃ v,
    create_feature_vector C (extract_audio_features C audio_path)
      (analyze_voice_characteristics C audio_path) = Ok v
    ∧ predict_fast C audio_path
      = match rf_truth C with
        | Raise => Raise
        | Ok (Some rf) =>
            match forest_prediction C rf v with
            | Ok r => Ok (labelled r)
            | Raise =>
                Ok (labelled
                      (rule_based_prediction (extract_audio_features C audio_path)
                         (analyze_voice_characteristics C audio_path)))
            end
        | Ok None =>
            Ok (labelled
                  (rule_based_prediction (extract_audio_features C audio_path)
                     (analyze_voice_characteristics C audio_path)))
        end.
Proof.
  pose proof (create_feature_vector_extracted C audio_path
                (analyze_voice_characteristics C audio_path)) as Hok.
  destruct (create_feature_vector C _ _) as [v|] eqn:Hv; [ | discriminate].
  exists v. split; [reflexivity | ].
  unfold predict_fast, audio_prediction. rewrite extracted_nonempty, Hv. cbn.
  destruct (rf_truth C) as [[rf|]|]; cbn; try reflexivity.
  - destruct (forest_prediction C rf v) as [[p s]|]; cbn.
    + unfold labelled. cbn. by destruct (map_prediction_to_label p).
    + destruct (rule_based_prediction _ _) as [p s]. unfold labelled. cbn.
      by destruct (map_prediction_to_label p).
  - destruct (rule_based_prediction _ _) as [p s]. unfold labelled. cbn.
    by destruct (map_prediction_to_label p).
Qed.

(** X8: in fast mode on an existing file the transcription is not looked
    at; a fitted forest that answers decides the label and the confidence
    alone, and the rules of the fallback answer when there is no forest or
    when the forest or the scaler raises. *)
Theorem fast_mode_decision (C : VoiceThreatClassifier) (audio_path : string)
    (transcription : option text) :
  os_path_exists C audio_path = true →
  predict C audio_path transcription true = predict C audio_path None true
  ∧ (∀ rf v r,
       rf_truth C = Ok (Some rf) →
       create_feature_vector C (extract_audio_features C audio_path)
         (analyze_voice_characteristics C audio_path) = Ok v →
       forest_prediction C rf v = Ok r →
       predict C audio_path transcription true = Ok (labelled r))
  ∧ (∀ rf v,
       rf_truth C = Ok (Some rf) →
       create_feature_vector C (extract_audio_features C audio_path)
         (analyze_voice_characteristics C audio_path) = Ok v →
       forest_prediction C rf v = Raise →
       predict C audio_path transcription true
         = Ok (labelled
                 (rule_based_prediction (extract_audio_features C audio_path)
                    (analyze_voice_characteristics C audio_path))))
  ∧ (rf_truth C = Ok None →
     predict C audio_path transcription true
       = Ok (labelled
               (rule_based_prediction (extract_audio_features C audio_path)
                  (analyze_voice_characteristics C audio_path)))).
Proof.
  intros Hex. split; [reflexivity | ].
  unfold predict, predict_body. rewrite Hex. cbn [negb].
  destruct (predict_fast_cases C audio_path) as (v & Hv & ->).
  repeat split.
  - intros rf v' r Hrf Hv' Hr. rewrite Hv in Hv'. injection Hv' as <-.
    rewrite Hrf, Hr. reflexivity.
  - intros rf v' Hrf Hv' Hr. rewrite Hv in Hv'. injection Hv' as <-.
    rewrite Hrf, Hr. reflexivity.
  - intros Hrf. rewrite Hrf. reflexivity.
Qed.

Lemma fast_mode_decision_witness :
  predict (Examples.with_forest 0.9) "clip.wav" (Some Examples.threat_text) true
    = predict (Examples.with_forest 0.9) "clip.wav" None true
  ∧ predict (Examples.with_forest 0.9) "clip.wav" None true
    = Ok (Threat, "⚠"%string, 0.9).
Proof.
  destruct (fast_mode_decision (Examples.with_forest 0.9) "clip.wav"
              (Some Examples.threat_text) ltac:(reflexivity))
    as (H1 & _).
  split; [exact H1 | vm_compute; reflexivity].
Defined.

(** ** Full mode on the audio alone *)

Lemma audio_signal_without_forest (C : VoiceThreatClassifier)
    (audio_path : string) :
  rf_classifier C = None →
  audio_signal C audio_path
    = rule_based_score (analyze_voice_characteristics C audio_path).
Proof.
  intros Hrf. unfold audio_signal, audio_prediction.
  rewrite extracted_nonempty.
  pose proof (create_feature_vector_extracted C audio_path
                (analyze_voice_characteristics C audio_path)) as Hok.
  destruct (create_feature_vector C _ _) as [v|]; [ | discriminate]. cbn.
  unfold rf_truth. rewrite Hrf. cbn. unfold rule_based_prediction.
  destruct (PyFloat.gt _ 0.7); [reflexivity | ].
  destruct (PyFloat.gt _ 0.4); reflexivity.
Qed.

(** X9: in full mode without a forest, without an emotion model and
    without a transcript, the voice alone cannot leave Safe: whatever the
    voice characteristics are, the fused score is at most 0.3. *)
Theorem full_mode_audio_only (C : VoiceThreatClassifier) (audio_path : string)
    (transcription : option text) :
  os_path_exists C audio_path = true →
  text_truthy (effective_transcription C audio_path transcription) = false →
  emotion_classifier C = None →
  rf_classifier C = None →
  ∃ score,
    predict C audio_path transcription false = Ok (Safe, "✅"%string, score)
    ∧ PyFloat.le score 0.3 = true.
Proof.
  intros Hex Htr Hem Hrf.
  unfold predict, predict_body, predict_full. rewrite Hex. cbn [negb].
  assert (text_gate C (effective_transcription C audio_path transcription)
            = (Safe, "✅"%string)) as ->.
  { destruct (effective_transcription C audio_path transcription) as [[|c t]|];
      try reflexivity. discriminate. }
  unfold fused.
  assert (text_signals C (effective_transcription C audio_path transcription)
            = (0, 0, 0)) as ->.
  { destruct (effective_transcription C audio_path transcription) as [[|c t]|];
      try reflexivity. discriminate. }
  unfold emotion_signal. rewrite Hem.
  rewrite (audio_signal_without_forest C audio_path Hrf).
  rewrite rule_based_score_cases.
  destruct (PyFloat.gt (voice_get _ "stress_indicators") 0.7);
  destruct (PyFloat.gt (voice_get _ "aggression_indicators") 0.7);
  destruct (PyFloat.gt (voice_get _ "volume_variation") 0.5);
  destruct (PyFloat.gt (voice_get _ "pitch_variation") 0.5);
  eexists; (split; [vm_compute; reflexivity | vm_compute; reflexivity]).
Qed.

Lemma full_mode_audio_only_witness :
  ∃ score,
    predict Examples.with_onsets "clip.wav" None false
      = Ok (Safe, "✅"%string, score)
    ∧ PyFloat.le score 0.3 = true.
Proof.
  apply (full_mode_audio_only Examples.with_onsets "clip.wav" None);
    reflexivity.
Defined.

Lemma fast_mode_cases_without_forest (C : VoiceThreatClassifier)
    (audio_path : string) :
  os_path_exists C audio_path = true →
  rf_classifier C = None →
  predict C audio_path None true
    = Ok (labelled
            (rule_based_prediction (extract_audio_features C audio_path)
               (analyze_voice_characteristics C audio_path)))
  ∧ rf_truth C = Ok None.
Proof.
  intros Hex Hrf.
  assert (rf_truth C = Ok None) as Ht by (unfold rf_truth; by rewrite Hrf).
  split; [ | exact Ht].
  unfold predict, predict_body. rewrite Hex. cbn [negb].
  destruct (predict_fast_cases C audio_path) as (v & Hv & ->).
  rewrite Ht. reflexivity.
Qed.

(** The queue grows by one exactly when the assessment is Threat or
    Offensive with a confidence above 0.6. *)
Lemma analyze_chunk_qsize (C : VoiceThreatClassifier) (cb : Monitor.Callbacks)
    (tmp : string) (now : float) (audio_chunk : audio) (st : Monitor.State)
    (l : Label) (e : string) (c : float) :
  Monitor.unbounded st →
  predict C tmp None true = Ok (l, e, c) →
  ∃ st' calls,
    Monitor.analyze_chunk C cb tmp now audio_chunk st = Some (st', calls)
    ∧ Queue.qsize (Monitor.alert_queue st')
      = (Queue.qsize (Monitor.alert_queue st)
         + (if bool_decide (l ∈ [Threat; Offensive]) && PyFloat.gt c 0.6
            then 1 else 0))%nat.
Proof.
  intros Hq Hp. unfold Monitor.analyze_chunk. rewrite Hp.
  destruct (bool_decide _ && PyFloat.gt c 0.6).
  - rewrite (put_unbounded _ _ Hq).
    destruct (Monitor.alert_callback cb) as [f|]; [destruct (f _) | ];
      eexists _, _; (split; [reflexivity | ]);
      unfold Queue.qsize; cbn; rewrite length_app; reflexivity.
  - eexists _, _. split; [reflexivity | lia].
Qed.

(** ** Monitoring with the fallback rules *)

(** X10: when no forest is loaded, a recorded chunk raises an alert exactly
    when its aggression test fires together with its stress test or its
    volume test; the queue then grows by one alert and is otherwise left as
    it is. *)
Theorem fallback_alerts (C : VoiceThreatClassifier) (evs : list Monitor.event)
    (cb : Monitor.Callbacks) (tmp : string) (now : float) (audio_chunk : audio) :
  os_path_exists C tmp = true →
  rf_classifier C = None →
  ∃ st calls,
    Monitor.analyze_chunk C cb tmp now audio_chunk (Monitor.run C evs)
      = Some (st, calls)
    ∧ Queue.qsize (Monitor.alert_queue st)
      = (Queue.qsize (Monitor.alert_queue (Monitor.run C evs))
         + (if PyFloat.gt
                 (voice_get (analyze_voice_characteristics C tmp)
                    "aggression_indicators") 0.7
               && (PyFloat.gt
                     (voice_get (analyze_voice_characteristics C tmp)
                        "stress_indicators") 0.7
                   || PyFloat.gt
                        (voice_get (analyze_voice_characteristics C tmp)
                           "volume_variation") 0.5)
            then 1 else 0))%nat.
Proof.
  intros Hex Hrf.
  destruct (fast_mode_cases_without_forest C tmp Hex Hrf) as [Hp _].
  destruct (labelled _) as [[l e] c] eqn:Hl.
  destruct (analyze_chunk_qsize C cb tmp now audio_chunk (Monitor.run C evs)
              l e c (run_unbounded C evs) Hp) as (st & calls & Hrun & Hsize).
  exists st, calls. split; [exact Hrun | ]. rewrite Hsize. f_equal.
  revert Hl. unfold labelled, rule_based_prediction.
  rewrite rule_based_score_cases.
  destruct (PyFloat.gt (voice_get _ "stress_indicators") 0.7);
  destruct (PyFloat.gt (voice_get _ "aggression_indicators") 0.7);
  destruct (PyFloat.gt (voice_get _ "volume_variation") 0.5);
  destruct (PyFloat.gt (voice_get _ "pitch_variation") 0.5);
  vm_compute; intros Hl; injection Hl as <- <- <-; reflexivity.
Qed.

Lemma fallback_alerts_witness :
  ∃ st calls,
    Monitor.analyze_chunk Scenarios.harsh Examples.no_callbacks
      "clip.wav" 0 [] (Monitor.run Scenarios.harsh [Monitor.Start])
      = Some (st, calls)
    ∧ Queue.qsize (Monitor.alert_queue st) = 1%nat.
Proof.
  apply (fallback_alerts Scenarios.harsh [Monitor.Start]
           Examples.no_callbacks "clip.wav" 0 []); reflexivity.
Defined.

(** Stress with aggression is Offensive at 0.7 and alerts; stress with both
    variations is Offensive at 0.6 and does not. *)
Example fallback_alert_samples :
  predict Scenarios.harsh "clip.wav" None true = Ok (Offensive, "❗"%string, 0.7)
  ∧ PyFloat.gt (0.0 + 0.3 + 0.2 + 0.1) 0.6 = false
  ∧ PyFloat.gt (0.0 + 0.4 + 0.2) 0.6 = true.
Proof. repeat split; vm_compute; reflexivity. Qed.

(** ** More float comparisons *)

Lemma SFltb_asym (x y : spec_float) :
  SFltb x y = true → SFltb y x = false.
Proof.
  unfold SFltb, SFcompare.
  destruct x as [sx|sx| |sx mx ex], y as [sy|sy| |sy my ey];
    try destruct sx; try destruct sy; try discriminate; try reflexivity;
    repeat match goal with
    | |- context [(?a ?= ?b)%Z] => destruct (Z.compare_spec a b)
    | |- context [PosDef.Pos.compare_cont Eq ?a ?b] =>
        change (PosDef.Pos.compare_cont Eq a b) with (Pos.compare a b);
        destruct (Pos.compare_spec a b)
    end; cbn [CompOpp]; try discriminate; try reflexivity;
    intros _; exfalso; lia.
Qed.

Lemma SFltb_leb (x y : spec_float) : SFltb x y = true → SFleb x y = true.
Proof. unfold SFltb, SFleb. by destruct (SFcompare x y) as [[]|]. Qed.

(** [a < b] gives [a <= b]. *)
Lemma lt_le (a b : float) : PyFloat.lt a b = true → PyFloat.le a b = true.
Proof.
  unfold PyFloat.lt, PyFloat.le. rewrite ltb_spec, leb_spec. apply SFltb_leb.
Qed.

(** [c > b] and [s <= b] exclude [c < s]. *)
Lemma gt_le_not_lt (b c s : float) :
  PyFloat.gt c b = true → PyFloat.le s b = true → PyFloat.lt c s = false.
Proof.
  unfold PyFloat.gt, PyFloat.le, PyFloat.lt. rewrite !ltb_spec, leb_spec.
  intros Hbc Hsb. destruct (SFltb (Prim2SF c) (Prim2SF s)) eqn:Hcs; [ | done].
  pose proof (SFcompare_lt_le_trans _ _ _ Hcs Hsb) as Hcb.
  apply SFltb_asym in Hbc. congruence.
Qed.

(** ** The alerts of a session *)

Section Alerts.
Import Monitor.
Context (C : VoiceThreatClassifier).

(** What [analyze_chunk] does once the assessment is known to alert. *)
Lemma analyze_chunk_alerting (cb : Callbacks) (tmp : string) (now : float)
    (audio_chunk : audio) (st : State) (l : Label) (e : string) (c : float) :
  unbounded st →
  predict C tmp None true = Ok (l, e, c) →
  bool_decide (l ∈ [Threat; Offensive]) && PyFloat.gt c 0.6 = true →
  analyze_chunk C cb tmp now audio_chunk st
    = Some ({| is_monitoring := is_monitoring st;
               alert_queue :=
                 Queue.mk 0
                   (Queue.items (alert_queue st)
                      ++ [{| type := "voice_threat"; label := l;
                             confidence := c; timestamp := now;
                             audio_file := tmp; emoji := e |}]) |},
            match alert_callback cb with
            | Some f =>
                match f {| type := "voice_threat"; label := l;
                           confidence := c; timestamp := now;
                           audio_file := tmp; emoji := e |} with
                | Ok _ =>
                    AlertCall {| type := "voice_threat"; label := l;
                                 confidence := c; timestamp := now;
                                 audio_file := tmp; emoji := e |}
                    :: call_audio cb audio_chunk l c
                | Raise =>
                    [AlertCall {| type := "voice_threat"; label := l;
                                  confidence := c; timestamp := now;
                                  audio_file := tmp; emoji := e |}]
                end
            | None => call_audio cb audio_chunk l c
            end).
Proof.
  intros Hq Hp Hc. unfold analyze_chunk. rewrite Hp, Hc.
  rewrite (put_unbounded _ _ Hq).
  destruct (alert_callback cb) as [f|]; [destruct (f _) | ]; reflexivity.
Qed.

Lemma step_well_formed (st : State) (ev : event) :
  unbounded st →
  Forall Session.well_formed (Queue.items (alert_queue st)) →
  Forall Session.well_formed (Queue.items (alert_queue (step C st ev))).
Proof.
  intros Hq H. destruct ev as [ | | |cb tmp now chunk| ]; cbn; try done.
  - rewrite get_alerts_spec. cbn. constructor.
  - destruct (is_monitoring st); [ | exact H].
    destruct (predict C tmp None true) as [[[l e] c]|] eqn:Hp;
      [ | unfold analyze_chunk; rewrite Hp; exact H].
    destruct (bool_decide (l ∈ [Threat; Offensive]) && PyFloat.gt c 0.6)
      eqn:Hc.
    + rewrite (analyze_chunk_alerting cb tmp now chunk st l e c Hq Hp Hc). cbn.
      apply Forall_app. split; [exact H | ].
      apply andb_true_iff in Hc as [Hl Hc]. apply bool_decide_eq_true in Hl.
      constructor; [ | constructor]. unfold Session.well_formed. cbn. auto.
    + unfold analyze_chunk. rewrite Hp, Hc. exact H.
Qed.

Lemma foldl_step_well_formed (evs : list event) :
  ∀ st,
    unbounded st →
    Forall Session.well_formed (Queue.items (alert_queue st)) →
    Forall Session.well_formed (Queue.items (alert_queue (foldl (step C) st evs))).
Proof.
  induction evs as [|ev evs IH]; intros st Hq H; cbn; [exact H | ].
  apply IH; [by apply step_unbounded | by apply step_well_formed].
Qed.

End Alerts.

(** X11: in every reachable state, each queued alert is of type
    voice_threat, is labelled Threat or Offensive and has a confidence above
    0.6. *)
Theorem queued_alerts_well_formed (C : VoiceThreatClassifier)
    (evs : list Monitor.event) :
  Forall Session.well_formed
    (Queue.items (Monitor.alert_queue (Monitor.run C evs))).
Proof.
  apply foldl_step_well_formed; [reflexivity | constructor].
Qed.



(** ** Callback and polling *)

Section Delivery.
Import Monitor.
Context (C : VoiceThreatClassifier).

Lemma alert_calls_app (cs cs' : list call) :
  Session.alert_calls (cs ++ cs')
    = Session.alert_calls cs ++ Session.alert_calls cs'.
Proof. apply omap_app. Qed.

Lemma alert_calls_call_audio (cb : Callbacks) (audio_chunk : audio)
    (l : Label) (c : float) :
  Session.alert_calls (call_audio cb audio_chunk l c) = [].
Proof. unfold call_audio. by destruct (audio_callback cb). Qed.

Lemma step_in_step (o : Session.Outcome) (ev : event) :
  Session.listening ev → Session.in_step o →
  Session.in_step (Session.step C o ev).
Proof.
  intros Hev [Hq Heq]. unfold Session.in_step.
  destruct ev as [ | | |cb tmp now chunk| ]; cbn in *; try done.
  - rewrite get_alerts_spec. cbn. split; [exact Hq | ].
    by rewrite app_nil_r.
  - destruct (is_monitoring (Session.state o)); [ | done].
    destruct (predict C tmp None true) as [[[l e] c]|] eqn:Hp;
      [ | unfold analyze_chunk; rewrite Hp; cbn; by rewrite app_nil_r].
    destruct (bool_decide (l ∈ [Threat; Offensive]) && PyFloat.gt c 0.6)
      eqn:Hc.
    + rewrite (analyze_chunk_alerting C cb tmp now chunk _ l e c Hq Hp Hc).
      cbn. split; [reflexivity | ].
      rewrite alert_calls_app, Heq. destruct Hev as [f ->].
      destruct (f _); cbn; rewrite ?alert_calls_call_audio;
        by rewrite <- app_assoc.
    + unfold analyze_chunk. rewrite Hp, Hc. cbn. split; [exact Hq | ].
      by rewrite alert_calls_app, alert_calls_call_audio, app_nil_r.
Qed.

Lemma run_in_step (evs : list event) :
  ∀ o, Forall Session.listening evs → Session.in_step o →
       Session.in_step (Session.run C o evs).
Proof.
  induction evs as [|ev evs IH]; intros o Hevs Ho; cbn; [exact Ho | ].
  apply Forall_cons in Hevs as [Hev Hevs].
  apply IH; [exact Hevs | by apply step_in_step].
Qed.

End Delivery.

(** X13: in a session in which every chunk is analysed with an alert
    callback, between two iterations of the worker the alerts the callback
    was called with are, in the same order, the alerts handed over by the
    polls so far followed by the alerts still queued: polling neither loses,
    repeats nor reorders an alert. *)
Theorem callback_and_polling_agree (C : VoiceThreatClassifier)
    (st : Monitor.State) (evs : list Monitor.event) :
  Forall Session.listening evs →
  Session.alert_calls (Session.calls (Session.run C (Session.begin st) evs))
    = Session.polled (Session.run C (Session.begin st) evs)
      ++ Queue.items
           (Monitor.alert_queue
              (Session.state (Session.run C (Session.begin st) evs))).
Proof.
  intros Hevs.
  apply (run_in_step C evs (Session.begin st) Hevs).
  split; reflexivity.
Qed.

Lemma callback_and_polling_agree_witness :
  length
    (Session.polled
       (Session.run (Examples.with_forest 0.9) (Session.begin Monitor.init)
          [Monitor.Chunk Examples.both_callbacks "a.wav" 1 [];
           Monitor.Chunk Examples.both_callbacks "b.wav" 2 [];
           Monitor.GetAlerts;
           Monitor.Chunk Examples.both_callbacks "c.wav" 3 []])) = 2%nat
  ∧ Session.alert_calls
      (Session.calls
         (Session.run (Examples.with_forest 0.9) (Session.begin Monitor.init)
            [Monitor.Chunk Examples.both_callbacks "a.wav" 1 [];
             Monitor.Chunk Examples.both_callbacks "b.wav" 2 [];
             Monitor.GetAlerts;
             Monitor.Chunk Examples.both_callbacks "c.wav" 3 []]))
    = Session.polled
        (Session.run (Examples.with_forest 0.9) (Session.begin Monitor.init)
           [Monitor.Chunk Examples.both_callbacks "a.wav" 1 [];
            Monitor.Chunk Examples.both_callbacks "b.wav" 2 [];
            Monitor.GetAlerts;
            Monitor.Chunk Examples.both_callbacks "c.wav" 3 []])
      ++ Queue.items
           (Monitor.alert_queue
              (Session.state
                 (Session.run (Examples.with_forest 0.9)
                    (Session.begin Monitor.init)
                    [Monitor.Chunk Examples.both_callbacks "a.wav" 1 [];
                     Monitor.Chunk Examples.both_callbacks "b.wav" 2 [];
                     Monitor.GetAlerts;
                     Monitor.Chunk Examples.both_callbacks "c.wav" 3 []]))).
Proof.
  split; [vm_compute; reflexivity | ].
  apply (callback_and_polling_agree (Examples.with_forest 0.9) Monitor.init).
  repeat constructor; eexists; reflexivity.
Defined.

(** X14: when the alert callback raises, the alert stays queued and the
    audio callback is not called for that chunk; when it returns, the audio
    callback, if any, is called after it. *)
Theorem alert_callback_failure (C : VoiceThreatClassifier)
    (evs : list Monitor.event) (cb : Monitor.Callbacks) (tmp : string)
    (now : float) (audio_chunk : audio) (l : Label) (e : string) (c : float)
    (f : Monitor.Alert → result unit) :
  predict C tmp None true = Ok (l, e, c) →
  bool_decide (l ∈ [Threat; Offensive]) && PyFloat.gt c 0.6 = true →
  Monitor.alert_callback cb = Some f →
  ∃ st,
    Queue.items (Monitor.alert_queue st)
      = Queue.items (Monitor.alert_queue (Monitor.run C evs))
        ++ [{| Monitor.type := "voice_threat"; Monitor.label := l;
               Monitor.confidence := c; Monitor.timestamp := now;
               Monitor.audio_file := tmp; Monitor.emoji := e |}]
    ∧ Monitor.analyze_chunk C cb tmp now audio_chunk (Monitor.run C evs)
      = Some (st,
              match f {| Monitor.type := "voice_threat"; Monitor.label := l;
                         Monitor.confidence := c; Monitor.timestamp := now;
                         Monitor.audio_file := tmp; Monitor.emoji := e |} with
              | Raise =>
                  [Monitor.AlertCall
                     {| Monitor.type := "voice_threat"; Monitor.label := l;
                        Monitor.confidence := c; Monitor.timestamp := now;
                        Monitor.audio_file := tmp; Monitor.emoji := e |}]
              | Ok _ =>
                  Monitor.AlertCall
                    {| Monitor.type := "voice_threat"; Monitor.label := l;
                       Monitor.confidence := c; Monitor.timestamp := now;
                       Monitor.audio_file := tmp; Monitor.emoji := e |}
                  :: match Monitor.audio_callback cb with
                     | Some _ => [Monitor.AudioCall audio_chunk l c]
                     | None => []
                     end
              end).
Proof.
  intros Hp Hc Hf.
  rewrite (analyze_chunk_alerting C cb tmp now audio_chunk _ l e c
             (run_unbounded C evs) Hp Hc), Hf.
  eexists. split; [ | reflexivity]. reflexivity.
Qed.

Lemma alert_callback_failure_witness :
  ∃ st alert,
    Monitor.analyze_chunk (Examples.with_forest 0.9)
      {| Monitor.audio_callback := Some (λ _ _ _, Ok ());
         Monitor.alert_callback := Some (λ _, Raise) |}
      "clip.wav" 7 [] (Monitor.run (Examples.with_forest 0.9) [Monitor.Start])
      = Some (st, [Monitor.AlertCall alert])
    ∧ Queue.items (Monitor.alert_queue st) = [alert].
Proof.
  destruct (alert_callback_failure (Examples.with_forest 0.9) [Monitor.Start]
              {| Monitor.audio_callback := Some (λ _ _ _, Ok ());
                 Monitor.alert_callback := Some (λ _, Raise) |}
              "clip.wav" 7 [] Threat "⚠" 0.9 (λ _, Raise)
              ltac:(vm_compute; reflexivity) ltac:(vm_compute; reflexivity)
              ltac:(reflexivity))
    as (st & Hq & Hrun).
  exists st. eexists. split; [exact Hrun | exact Hq].
Defined.

(** ** The alert counter of the application *)

(** X15: the application handles every alert twice, once in the callback
    and once when it polls: with both kinds of alert switched on and a
    sensitivity of at most 0.6, an alerting chunk followed by a round of
    polling, from an empty queue, advances the alert counter by 2. *)
Theorem alert_counted_twice (C : VoiceThreatClassifier)
    (evs : list Monitor.event) (h : Host.State) (tmp : string) (now : float)
    (audio_chunk : audio) (l : Label) (e : string) (c : float) :
  Monitor.is_monitoring (Monitor.run C evs) = true →
  Queue.items (Monitor.alert_queue (Monitor.run C evs)) = [] →
  predict C tmp None true = Ok (l, e, c) →
  bool_decide (l ∈ [Threat; Offensive]) && PyFloat.gt c 0.6 = true →
  Host.alert_threats h = true →
  Host.alert_offensive h = true →
  PyFloat.le (Host.sensitivity_var h) 0.6 = true →
  Host.alert_counter
    (Host.worker_iteration C tmp now audio_chunk (Monitor.run C evs, h)).2
    = S (Host.alert_counter h)
  ∧ Host.alert_counter
      (Host.check_alerts
         (Host.worker_iteration C tmp now audio_chunk (Monitor.run C evs, h))).2
    = S (S (Host.alert_counter h))
  ∧ Queue.items
      (Monitor.alert_queue
         (Host.check_alerts
            (Host.worker_iteration C tmp now audio_chunk
               (Monitor.run C evs, h))).1)
    = [].
Proof.
  intros Hm Hq Hp Hc Ht Ho Hs.
  pose proof Hc as Hgt. apply andb_true_iff in Hgt as [_ Hgt].
  assert (∀ h', Host.alert_threats h' = true → Host.alert_offensive h' = true →
                Host.sensitivity_var h' = Host.sensitivity_var h →
                Host.handle_voice_alert h'
                  {| Monitor.type := "voice_threat"; Monitor.label := l;
                     Monitor.confidence := c; Monitor.timestamp := now;
                     Monitor.audio_file := tmp; Monitor.emoji := e |}
                = {| Host.alert_threats := Host.alert_threats h';
                     Host.alert_offensive := Host.alert_offensive h';
                     Host.sensitivity_var := Host.sensitivity_var h';
                     Host.alert_counter := S (Host.alert_counter h') |})
    as Hhandle.
  { intros h' Ht' Ho' Hs'. unfold Host.handle_voice_alert.
    cbn [Monitor.label Monitor.confidence].
    rewrite Ht', Ho', Hs'. cbn [negb]. rewrite !andb_false_r.
    by rewrite (gt_le_not_lt 0.6 c _ Hgt Hs). }
  unfold Host.check_alerts, Host.worker_iteration. cbn [fst snd]. rewrite Hm.
  rewrite (analyze_chunk_alerting C Host.callbacks tmp now audio_chunk _ l e c
             (run_unbounded C evs) Hp Hc).
  rewrite Hq. cbn [Host.callbacks Monitor.alert_callback Monitor.call_audio
                   Monitor.audio_callback app fst snd].
  rewrite get_alerts_spec.
  cbn [Monitor.alert_queue Queue.items foldl Host.handle_call fst snd].
  rewrite (Hhandle h Ht Ho eq_refl).
  rewrite Hhandle by (cbn; auto). cbn. repeat split.
Qed.

Lemma alert_counted_twice_witness :
  Host.alert_counter
    (Host.check_alerts
       (Host.worker_iteration (Examples.with_forest 0.9) "clip.wav" 7 []
          (Monitor.run (Examples.with_forest 0.9) [Monitor.Start],
           Host.created))).2
  = 2%nat.
Proof.
  apply (alert_counted_twice (Examples.with_forest 0.9) [Monitor.Start]
           Host.created "clip.wav" 7 [] Threat "⚠" 0.9);
    vm_compute; reflexivity.
Defined.

(** ** The transcript classifier *)

Lemma search_from_app (U : UnicodeDB) (r : Re.regex) (pre s : text) :
  (∀ prev, Re.match_here U true r prev s = true) →
  ∀ prev, Re.search_from U true r prev (pre ++ s) = true.
Proof.
  intros Hs. induction pre as [|c pre IH]; intros prev.
  - cbn [app]. destruct s; cbn [Re.search_from]; by rewrite Hs.
  - cbn [app Re.search_from]. rewrite IH. apply orb_true_r.
Qed.

(** X16: the money keywords [transfer], [payment], [account] and [bank]
    carry no word boundary: a text that contains one of them anywhere, also
    inside a longer word, is Offensive whatever the model and the threat
    keywords say. *)
Theorem money_word_inside_word (U : UnicodeDB)
    (M : TextModel.TextThreatClassifier) (w : string) (pre post : text) :
  w ∈ ["transfer"; "payment"; "account"; "bank"]%string →
  Forall (λ c, uni_ieq U c c = true) (str w) →
  TextModel.predict U M (pre ++ str w ++ post) = Ok (Offensive, "❗"%string).
Proof.
  intros Hw Hieq. unfold TextModel.predict.
  assert (Re.search U true (Re.compile w) (pre ++ str w ++ post) = true)
    as Hsearch.
  { apply search_from_app. intros prev.
    destruct U as [isdigit isspace isword ieq lower]. cbn [uni_ieq] in Hieq.
    repeat (apply elem_of_cons in Hw as [->|Hw]);
      [ | | | | by apply elem_of_nil in Hw];
      repeat (apply Forall_cons in Hieq as [? Hieq]);
      repeat match goal with H : ieq _ _ = true |- _ =>
               vm_compute in H; revert H
             end;
      vm_compute; intros;
      repeat match goal with H : ieq _ _ = true |- _ =>
               rewrite H; clear H
             end;
      reflexivity. }
  assert (TextModel.any_match U TextModel.money_keywords
            (pre ++ str w ++ post) = true) as ->; [ | reflexivity].
  unfold TextModel.any_match, TextModel.money_keywords. cbn [existsb].
  repeat (apply elem_of_cons in Hw as [->|Hw]);
    [ | | | | by apply elem_of_nil in Hw];
    rewrite Hsearch; by rewrite ?orb_true_r.
Qed.

Lemma money_word_inside_word_witness :
  TextModel.predict Examples.ascii_tables (Scenarios.threat_model 0)
    (str "the river" ++ str "bank" ++ str "s were flooded")
  = Ok (Offensive, "❗"%string).
Proof.
  apply (money_word_inside_word Examples.ascii_tables
           (Scenarios.threat_model 0) "bank").
  - apply (bool_decide_unpack _). vm_compute. exact I.
  - repeat constructor.
Defined.

(** X17: scanning a line at a threshold below 0.4 reports every line that
    [predict], deciding by the model, does not call Safe; the two need not
    agree on the label. *)
Theorem scan_covers_predict (U : UnicodeDB)
    (M : TextModel.TextThreatClassifier) (t : text) (threshold : float)
    (l : Label) (e : string) :
  TextModel.any_match U TextModel.money_keywords t = false →
  TextModel.any_match U TextModel.threat_keywords t = false →
  PyFloat.lt threshold 0.4 = true →
  TextModel.predict U M t = Ok (l, e) →
  l ≠ Safe →
  TextScan.extract_threat_offensive_words M t threshold = Ok [(t, Threat)]
  ∨ TextScan.extract_threat_offensive_words M t threshold
    = Ok [(t, Offensive)].
Proof.
  intros Hmoney Hthreat Hthr Hp Hl.
  unfold TextModel.predict in Hp. rewrite Hmoney, Hthreat in Hp.
  unfold TextScan.extract_threat_offensive_words, TextModel.predict_scores.
  apply bind_Ok in Hp as (probs & -> & Hp). cbn [mbind result_bind].
  destruct probs as [|p0 [|p1 [|p2 [|p3 [|p4 [|p5 [|p6 rest]]]]]]];
    try discriminate Hp.
  cbn in Hp. injection Hp as Hd.
  assert (∀ x, PyFloat.gt x 0.4 = true → PyFloat.gt x threshold = true)
    as Hup.
  { intros x Hx. apply (gt_le_trans threshold 0.4 x); [exact Hthr | ].
    by apply lt_le. }
  change (zip TextModel.label_names (p0 :: p1 :: p2 :: p3 :: p4 :: p5 :: p6
                                       :: rest))
    with [("toxic"%string, p0); ("severe_toxic"%string, p1);
          ("obscene"%string, p2); ("threat"%string, p3);
          ("insult"%string, p4); ("identity_hate"%string, p5);
          ("sexual_explicit"%string, p6)].
  change (TextScan.get _ "threat") with p3.
  cbn [TextScan.offensive_labels existsb].
  change (TextScan.get _ "toxic") with p0.
  change (TextScan.get _ "obscene") with p2.
  change (TextScan.get _ "severe_toxic") with p1.
  change (TextScan.get _ "insult") with p4.
  change (TextScan.get _ "identity_hate") with p5.
  change (TextScan.get _ "sexual_explicit") with p6.
  destruct (PyFloat.gt p3 threshold) eqn:E3; [by left | right].
  unfold TextModel.decide_label in Hd.
  destruct (PyFloat.gt p3 0.4) eqn:G3;
    [apply Hup in G3; congruence | ].
  destruct (PyFloat.gt p6 0.4) eqn:G6;
    [apply Hup in G6; rewrite G6; by rewrite ?orb_true_r | ].
  destruct (PyFloat.gt p5 0.4) eqn:G5;
    [apply Hup in G5; rewrite G5; by rewrite ?orb_true_r | ].
  destruct (PyFloat.gt p0 0.4) eqn:G0;
    [apply Hup in G0; by rewrite G0 | ].
  destruct (PyFloat.gt p2 0.4) eqn:G2;
    [apply Hup in G2; rewrite G2; by rewrite ?orb_true_r | ].
  destruct (PyFloat.gt p1 0.4) eqn:G1;
    [apply Hup in G1; rewrite G1; by rewrite ?orb_true_r | ].
  destruct (PyFloat.gt p4 0.4) eqn:G4;
    [apply Hup in G4; rewrite G4; by rewrite ?orb_true_r | ].
  cbn in Hd. congruence.
Qed.

Lemma scan_covers_predict_witness :
  TextModel.predict Examples.ascii_tables Scenarios.explicit_model
    Scenarios.plain_text = Ok (Threat, "⚠"%string)
  ∧ TextScan.extract_threat_offensive_words Scenarios.explicit_model
      Scenarios.plain_text TextScan.default_threshold
    = Ok [(Scenarios.plain_text, Offensive)].
Proof.
  split; [vm_compute; reflexivity | ].
  destruct (scan_covers_predict Examples.ascii_tables Scenarios.explicit_model
              Scenarios.plain_text TextScan.default_threshold Threat "⚠"
              ltac:(vm_compute; reflexivity) ltac:(vm_compute; reflexivity)
              ltac:(vm_compute; reflexivity) ltac:(vm_compute; reflexivity)
              ltac:(discriminate)) as [H|H].
  - vm_compute in H. discriminate H.
  - exact H.
Defined.

(** ** Training *)

Lemma training_vectors_Ok (C : VoiceThreatClassifier)
    (training_data : list (string * Z)) :
  ∃ features_list,
    VoiceTools.training_vectors C training_data
      = Ok (features_list, training_data.*2)
    ∧ Forall2
        (λ item v,
           create_feature_vector C (extract_audio_features C item.1)
             (analyze_voice_characteristics C item.1) = Ok v
           ∧ length v = 60%nat)
        training_data features_list.
Proof.
  induction training_data as [|[audio_path label] rest (vs & IH & Hvs)].
  - exists []. split; [reflexivity | constructor].
  - cbn [VoiceTools.training_vectors]. rewrite extracted_nonempty.
    pose proof (create_feature_vector_extracted C audio_path
                  (analyze_voice_characteristics C audio_path)) as Hv.
    destruct (create_feature_vector C (extract_audio_features C audio_path)
                (analyze_voice_characteristics C audio_path))
      as [v|] eqn:Ev; [ | discriminate Hv].
    exists (v :: vs). cbn [mbind result_bind]. rewrite IH. cbn.
    split; [reflexivity | ].
    constructor; [ | exact Hvs].
    split; [exact Ev | ]. by eapply create_feature_vector_length.
Qed.

(** X18: the training loop never skips a file and never raises: every
    labelled file, readable or not, contributes one vector of 60 values, the
    vector that [predict] would build for it, and its label, in order. *)
Theorem training_set_complete (C : VoiceThreatClassifier)
    (training_data : list (string * Z)) :
  ∃ features_list,
    VoiceTools.training_vectors C training_data
      = Ok (features_list, training_data.*2)
    ∧ length features_list = length training_data
    ∧ Forall2
        (λ item v,
           create_feature_vector C (extract_audio_features C item.1)
             (analyze_voice_characteristics C item.1) = Ok v
           ∧ length v = 60%nat)
        training_data features_list.
Proof.
  destruct (training_vectors_Ok C training_data) as (vs & H & Hvs).
  exists vs. split; [exact H | ]. split; [ | exact Hvs].
  symmetry. by eapply Forall2_length.
Qed.

(** X19: with fewer than ten labelled files, [train] changes neither the
    scaler nor the forest. *)
Theorem train_needs_ten_files (S : VoiceTools.Sklearn)
    (C : VoiceThreatClassifier) (training_data : list (string * Z)) :
  (length training_data < 10)%nat →
  VoiceTools.train S C training_data = C.
Proof.
  intros Hlen. unfold VoiceTools.train.
  destruct (training_vectors_Ok C training_data) as (vs & -> & Hvs).
  apply Forall2_length in Hvs. rewrite <- Hvs.
  by apply Nat.ltb_lt in Hlen as ->.
Qed.

Lemma train_needs_ten_files_witness :
  VoiceTools.train Scenarios.no_fit Examples.online
    [("a.wav"%string, 2%Z); ("b.wav"%string, 0%Z)]
  = Examples.online.
Proof.
  apply (train_needs_ten_files Scenarios.no_fit Examples.online
           [("a.wav"%string, 2%Z); ("b.wav"%string, 0%Z)]).
  cbn. lia.
Defined.

(** X20: when the scaler is refitted and the fit of the forest then raises,
    or there is no forest, [train] leaves the classifier with the new scaler
    beside the old forest. *)
Theorem train_half_done (S : VoiceTools.Sklearn) (C : VoiceThreatClassifier)
    (training_data : list (string * Z)) (features_list X_scaled : list (list float))
    (labels : list Z) (transform : list float → result (list float)) :
  (10 ≤ length training_data)%nat →
  VoiceTools.training_vectors C training_data = Ok (features_list, labels) →
  VoiceTools.fit_transform S features_list = Ok (transform, X_scaled) →
  match rf_classifier C with
  | Some rf => VoiceTools.fit S rf X_scaled labels = Raise
  | None => True
  end →
  scaler_transform (VoiceTools.train S C training_data) = transform
  ∧ rf_classifier (VoiceTools.train S C training_data) = rf_classifier C.
Proof.
  intros Hlen Hvs Hscale Hfit. unfold VoiceTools.train. rewrite Hvs.
  destruct (training_vectors_Ok C training_data) as (vs & Hvs' & Hall).
  rewrite Hvs in Hvs'. injection Hvs' as -> ->.
  apply Forall2_length in Hall. rewrite <- Hall.
  apply Nat.ltb_ge in Hlen as ->. rewrite Hscale.
  destruct (rf_classifier C) as [rf|] eqn:Erf.
  - rewrite Hfit. cbn. by rewrite Erf.
  - cbn. by rewrite Erf.
Qed.

Lemma train_half_done_witness :
  rf_classifier
    (VoiceTools.train
       {| VoiceTools.fit_transform X := Ok (λ _, Ok [], X);
          VoiceTools.fit _ _ _ := Raise;
          VoiceTools.score _ _ _ := Raise |}
       (Examples.with_forest 0.9)
       (replicate 10 ("a.wav"%string, 2%Z)))
  = Some (Examples.forest 0.9)
  ∧ scaler_transform
      (VoiceTools.train
         {| VoiceTools.fit_transform X := Ok (λ _, Ok [], X);
            VoiceTools.fit _ _ _ := Raise;
            VoiceTools.score _ _ _ := Raise |}
         (Examples.with_forest 0.9)
         (replicate 10 ("a.wav"%string, 2%Z))) [1; 2]
    = Ok [].
Proof.
  destruct (training_vectors_Ok (Examples.with_forest 0.9)
              (replicate 10 ("a.wav"%string, 2%Z))) as (vs & Hvs & _).
  destruct (train_half_done
              {| VoiceTools.fit_transform X := Ok (λ _, Ok [], X);
                 VoiceTools.fit _ _ _ := Raise;
                 VoiceTools.score _ _ _ := Raise |}
              (Examples.with_forest 0.9)
              (replicate 10 ("a.wav"%string, 2%Z))
              vs vs _ (λ _, Ok [])
              ltac:(cbn; lia) Hvs eq_refl eq_refl) as [Hs Hf].
  split; [exact Hf | ]. by rewrite Hs.
Defined.

(** ** Pitch patterns *)

(** X21: [detect_voice_patterns] never raises and always answers with a
    ["pattern_score"]; when the clip cannot be loaded, when the pitch
    tracker fails or finds no strong pitch, or when a reduction fails, the
    answer is the pattern score 0.0 alone. *)
Theorem pattern_score_present (C : VoiceThreatClassifier)
    (P : VoiceTools.PitchTools) (audio_path : string) :
  is_Some (VoiceTools.detect_voice_patterns C P audio_path
             !! "pattern_score"%string)
  ∧ (match load (librosa C) audio_path with
     | Raise => True
     | Ok y =>
         match VoiceTools.strong_pitch_values P y with
         | Raise | Ok [] => True
         | Ok pitch_values =>
             np_max (numpy C) pitch_values = Raise
             ∨ VoiceTools.np_min P pitch_values = Raise
         end
     end →
     VoiceTools.detect_voice_patterns C P audio_path = VoiceTools.no_pattern).
Proof.
  unfold VoiceTools.detect_voice_patterns.
  destruct (load (librosa C) audio_path) as [y|]; cbn [mbind result_bind];
    [ | split; [by eexists | done]].
  destruct (VoiceTools.strong_pitch_values P y) as [[|p ps]|];
    cbn [mbind result_bind length Nat.eqb];
    [split; [by eexists | done] | | split; [by eexists | done]].
  destruct (np_max (numpy C) (p :: ps)) as [highest|];
    cbn [mbind result_bind]; [ | split; [by eexists | done]].
  destruct (VoiceTools.np_min P (p :: ps)) as [lowest|];
    cbn [mbind result_bind try_default]; [ | split; [by eexists | done]].
  split; [ | by intros [?|?]].
  cbn [list_to_map foldr uncurry fst snd].
  rewrite !lookup_insert_ne by done. rewrite lookup_insert. by eexists.
Qed.

(** ** Score dictionaries and the emotion signal *)

Lemma dict_get_set (k k' : string) (v dflt : float) (d : pydict) :
  dict_get k dflt (dict_set k' v d)
    = if String.eqb k k' then v else dict_get k dflt d.
Proof.
  induction d as [|[k'' v''] d IH]; cbn; [reflexivity | ].
  destruct (String.eqb k' k'') eqn:E'; cbn.
  - apply String.eqb_eq in E' as <-. by destruct (String.eqb k k').
  - rewrite IH. destruct (String.eqb k k'') eqn:E''; [ | reflexivity].
    apply String.eqb_eq in E'' as ->. by rewrite String.eqb_sym, E'.
Qed.

Lemma dict_get_foldl_set (k : string) (dflt : float)
    (results : list (string * float)) :
  ∀ d, Forall (λ r, r.1 ≠ k) results →
       dict_get k dflt (foldl (λ d r, dict_set r.1 r.2 d) d results)
         = dict_get k dflt d.
Proof.
  induction results as [|[k' v] rs IH]; intros d Hrs; [reflexivity | ].
  apply Forall_cons in Hrs as [Hk Hrs]. cbn [foldl].
  rewrite IH by exact Hrs. rewrite dict_get_set.
  cbn [fst snd] in *. apply not_eq_sym, String.eqb_neq in Hk. by rewrite Hk.
Qed.

(** X22: the emotion signal counts the labels angry, fear, disgust and sad
    only: it is 0 for a clip that the speech test rejects, and 0 when the
    emotion model answers with other labels, whatever their scores. *)
Theorem emotion_signal_silent (C : VoiceThreatClassifier)
    (audio_path : string) :
  (is_speech C audio_path = false → emotion_signal C audio_path = 0)
  ∧ (∀ classifier a results,
       emotion_classifier C = Some classifier →
       is_speech C audio_path = true →
       load (librosa C) audio_path = Ok a →
       classifier a = Ok results →
       Forall (λ r, r.1 ∉ negative_emotions) results →
       emotion_signal C audio_path = 0).
Proof.
  unfold emotion_signal, analyze_emotion. split.
  - intros Hs. destruct (emotion_classifier C); [ | reflexivity].
    rewrite Hs. vm_compute. reflexivity.
  - intros classifier a results -> Hs -> Hr Hrs. rewrite Hs.
    cbn [negb mbind result_bind]. rewrite Hr. cbn [try_default mbind result_bind].
    destruct (truthy (dict_of_results results)); [ | reflexivity].
    unfold dict_of_results, negative_emotions. cbn [fmap list_fmap].
    rewrite !dict_get_foldl_set; [vm_compute; reflexivity | .. ].
    all: eapply Forall_impl; [exact Hrs | ]; intros r Hr' Heq; apply Hr';
      rewrite Heq; apply (bool_decide_unpack _); vm_compute; exact I.
Qed.

(** ** An unfitted forest, an unreadable clip *)

Lemma predict_fast_unfitted (C : VoiceThreatClassifier) (rf : RandomForest)
    (audio_path : string) (transcription : option text) :
  rf_classifier C = Some rf →
  estimators_ rf = None →
  predict C audio_path transcription true = Ok safe_default.
Proof.
  intros Hrf Hest. unfold predict, predict_body.
  destruct (os_path_exists C audio_path); cbn [negb]; [ | reflexivity].
  pose proof (predict_fast_raises C audio_path) as Hr.
  unfold rf_truth in Hr. rewrite Hrf, Hest in Hr.
  by destruct (predict_fast C audio_path).
Qed.

(** X23: a forest that is present but was never fitted, as it is left when
    the fit on dummy data in [_initialize_rf_classifier] fails, makes fast
    mode answer the Safe default with confidence 0.5 for every clip; the
    monitoring worker, which runs in fast mode, then never queues an
    alert. *)
Theorem unfitted_forest_never_alerts (C : VoiceThreatClassifier)
    (rf : RandomForest) (evs : list Monitor.event) :
  rf_classifier C = Some rf →
  estimators_ rf = None →
  (∀ audio_path transcription,
     predict C audio_path transcription true = Ok (Safe, "✅"%string, 0.5))
  ∧ Queue.items (Monitor.alert_queue (Monitor.run C evs)) = [].
Proof.
  intros Hrf Hest. split.
  - intros audio_path transcription.
    apply (predict_fast_unfitted C rf audio_path transcription Hrf Hest).
  - unfold Monitor.run.
    assert (Queue.items (Monitor.alert_queue Monitor.init) = []) as Hinit
      by reflexivity.
    revert Hinit. generalize Monitor.init.
    induction evs as [|ev evs IH]; intros st Hst; [exact Hst | ].
    cbn [foldl]. apply IH.
    destruct ev as [ | | |cb tmp now chunk| ]; cbn; try done.
    + rewrite get_alerts_spec. reflexivity.
    + destruct (Monitor.is_monitoring st); [ | exact Hst].
      unfold Monitor.analyze_chunk.
      rewrite (predict_fast_unfitted C rf tmp None Hrf Hest). exact Hst.
Qed.

Lemma unfitted_forest_never_alerts_witness :
  Queue.items
    (Monitor.alert_queue
       (Monitor.run
          (Examples.classifier (λ _, true) Scenarios.harsh_librosa
             (Some {| estimators_ := None; rf_predict _ := Ok 2%Z;
                      rf_predict_proba_max _ := Ok 0.9 |}))
          [Monitor.Start;
           Monitor.Chunk Examples.both_callbacks "a.wav" 1 [];
           Monitor.Chunk Examples.both_callbacks "b.wav" 2 []]))
  = [].
Proof.
  apply (unfitted_forest_never_alerts
           (Examples.classifier (λ _, true) Scenarios.harsh_librosa
              (Some {| estimators_ := None; rf_predict _ := Ok 2%Z;
                       rf_predict_proba_max _ := Ok 0.9 |}))
           {| estimators_ := None; rf_predict _ := Ok 2%Z;
              rf_predict_proba_max _ := Ok 0.9 |});
    reflexivity.
Defined.

(** X24: an existing clip that cannot be decoded is, without a forest,
    answered Safe with confidence 0.0 in fast mode: the default features and
    an empty voice analysis go through the fallback rules. *)
Theorem unreadable_clip (C : VoiceThreatClassifier) (audio_path : string)
    (transcription : option text) :
  os_path_exists C audio_path = true →
  load (librosa C) audio_path = Raise →
  rf_classifier C = None →
  extract_audio_features C audio_path = get_default_features
  ∧ analyze_voice_characteristics C audio_path = ∅
  ∧ predict C audio_path transcription true = Ok (Safe, "✅"%string, 0.0).
Proof.
  intros Hex Hload Hrf.
  assert (analyze_voice_characteristics C audio_path = ∅) as Hva.
  { unfold analyze_voice_characteristics. by rewrite Hload. }
  split; [unfold extract_audio_features; by rewrite Hload | ].
  split; [exact Hva | ].
  change (predict C audio_path transcription true)
    with (predict C audio_path None true).
  destruct (fast_mode_cases_without_forest C audio_path Hex Hrf) as [-> _].
  rewrite Hva. vm_compute. reflexivity.
Qed.

Lemma unreadable_clip_witness :
  predict Examples.online "clip.wav" (Some Examples.threat_text) true
  = Ok (Safe, "✅"%string, 0.0).
Proof.
  apply (unreadable_clip Examples.online "clip.wav"
           (Some Examples.threat_text)); reflexivity.
Defined.
